(** * DeFi portfolio tracker: aggregation and resilience layer

    A shallow embedding of [src/utils/api.ts], [src/utils/web3.ts] and the
    aggregation callback [fetchRealData] of [src/app/page.tsx].

    - JavaScript [number]s are IEEE binary64 values: Rocq's primitive
      [float].  Timestamps ([Date.now()]) and [BigNumber]s are integers: [Z].
    - A JavaScript [Map] / plain object used as a dictionary is a [gmap].
    - An [async] function is cut at its [await]s; between two [await]s the
      code runs without interleaving (one clock reading per segment).
    - A promise that may reject is an [outcome]; [try]/[catch] is a
      combinator on outcomes. *)

From Stdlib Require Import ZArith String Ascii List Bool Lia Floats Uint63.
From stdpp Require Import gmap strings list fin_maps.

Set Warnings "-inexact-float".
Local Open Scope string_scope.
Local Open Scope list_scope.
Local Open Scope Z_scope.

(** ** Outcomes of calls that may throw *)

Inductive outcome (A : Type) : Type :=
| Returned (a : A)
| Thrown (e : string).
Arguments Returned {A} a.
Arguments Thrown {A} e.

Definition is_returned {A} (o : outcome A) : bool :=
  match o with Returned _ => true | Thrown _ => false end.

(** ** JavaScript numbers *)

Module Js.

(** [ToBoolean] on a number: [0], [-0] and [NaN] are falsy. *)
Definition truthy (x : float) : bool :=
  negb (PrimFloat.eqb x 0 || PrimFloat.is_nan x).

(** [x || d] where [x] is an optional number ([undefined] when absent). *)
Definition or_default (x : option float) (d : float) : float :=
  match x with
  | Some v => if truthy v then v else d
  | None => d
  end.

(** [a > b] *)
Definition gt (a b : float) : bool := PrimFloat.ltb b a.

(** [Array.prototype.join] on an array of strings. *)
Definition join (sep : string) (xs : list string) : string :=
  String.concat sep xs.

Definition lower_ascii (c : ascii) : ascii :=
  let n := nat_of_ascii c in
  if (Nat.leb 65 n && Nat.leb n 90)%bool then ascii_of_nat (n + 32) else c.

(** [String.prototype.toLowerCase], on the ASCII range (all symbols of the
    source are ASCII literals). *)
Fixpoint toLowerCase (s : string) : string :=
  match s with
  | EmptyString => EmptyString
  | String c r => String (lower_ascii c) (toLowerCase r)
  end.

(** [xs.reduce((sum, x) => sum + f(x), 0)] *)
Definition sum_by {A} (f : A -> float) (xs : list A) : float :=
  fold_left (fun sum x => (sum + f x)%float) xs 0%float.

End Js.

(** ** Library and built-in functions the source calls

    [ethers.utils.isAddress], [ethers.utils.formatUnits],
    [BigNumber.prototype.toNumber] and the global [parseFloat] are not part
    of the repository: every definition below takes them as parameters. *)

Class Runtime : Type := {
  isAddress : string -> bool;
  formatUnits : Z -> Z -> outcome string;
  toNumber : Z -> outcome Z;
  parseFloat : string -> float
}.

(** [ethers.utils.formatEther(v)] is [formatUnits(v, 18)]. *)
Definition formatEther {rt : Runtime} (v : Z) : outcome string := formatUnits v 18.

(** ** The position interface

    [DefiPosition] is declared in [web3.ts]; [api.ts] and [page.tsx] declare
    the same interface without the two optional address fields, which the
    objects built by [web3.ts] carry nonetheless. *)

Record DefiPosition : Type := {
  protocol : string;
  type : string;
  token : string;
  amount : string;
  value : float;
  apy : option float;
  yield : option float;
  poolAddress : option string;
  contractAddress : option string
}.

(** ** utils/api.ts *)

Module Api.

Record PriceInfo : Type := {
  usd : float;
  usd_24h_change : option float;
  usd_market_cap : option float;
  usd_24h_vol : option float
}.

Abbreviation TokenMarketData := (gmap string PriceInfo).

Record CacheEntry : Type := {
  data : TokenMarketData;
  timestamp : Z
}.

(** The module-level mutable state: [cache] and [lastRequestTime]. *)
Record State : Type := {
  cache : gmap string CacheEntry;
  lastRequestTime : Z
}.

Definition initial : State := {| cache := ∅; lastRequestTime := 0 |}.

Definition CACHE_DURATION : Z := 5 * 60 * 1000.
Definition MIN_REQUEST_INTERVAL : Z := 1000.

Definition cacheKey (tokenIds : list string) : string :=
  "prices_" +:+ Js.join "," tokenIds.

(** What [axios.get] settles to. *)
Inductive NetResult : Type :=
| Response (d : TokenMarketData)
| Rejected (e : string).

(** Observable effects of one call. *)
Inductive Event : Type :=
| EvDelay (ms : Z)
| EvHttpGet (ids : string) (at_time : Z).

(** First segment of [fetchTokenPrices]: from entry to the first [await]
    (or to the early [return] of line 72). *)
Inductive Entered : Type :=
| CacheHit (d : TokenMarketData)
| Sleeping (ms : Z)
| Requesting.

(** Lines 76-80 when no delay is needed; line 78 otherwise. *)
Definition rateLimit (now : Z) (s : State) : Entered * State :=
  if now - lastRequestTime s <? MIN_REQUEST_INTERVAL
  then (Sleeping (MIN_REQUEST_INTERVAL - (now - lastRequestTime s)), s)
  else (Requesting, {| cache := cache s; lastRequestTime := now |}).

(** Lines 67-73: the value served from the cache, if any. *)
Definition cached (tokenIds : list string) (now : Z) (s : State)
  : option TokenMarketData :=
  match cache s !! cacheKey tokenIds with
  | Some c => if now - timestamp c <? CACHE_DURATION then Some (data c) else None
  | None => None
  end.

Definition enter (tokenIds : list string) (now : Z) (s : State)
  : Entered * State :=
  match cached tokenIds now s with
  | Some d => (CacheHit d, s)
  | None => rateLimit now s
  end.

(** Second segment: the timer of [delay] fired at [now]; line 80. *)
Definition wake (now : Z) (s : State) : State :=
  {| cache := cache s; lastRequestTime := now |}.

(** Third segment: the request settled at [now]; lines 95-98, or the
    rejection is thrown into the enclosing [try]. *)
Definition settle (tokenIds : list string) (r : NetResult) (now : Z) (s : State)
  : outcome TokenMarketData * State :=
  match r with
  | Response d =>
      (Returned d,
       {| cache := <[cacheKey tokenIds := {| data := d; timestamp := now |}]> (cache s);
          lastRequestTime := lastRequestTime s |})
  | Rejected e => (Thrown e, s)
  end.

Definition price (u : float) : PriceInfo :=
  {| usd := u; usd_24h_change := Some 0%float;
     usd_market_cap := None; usd_24h_vol := None |}.

(** Lines 103-111. *)
Definition fallbackPrices : TokenMarketData :=
  list_to_map
    [ ("ethereum", price 3200%float);
      ("uniswap", price 24.2%float);
      ("aave", price 85.5%float);
      ("compound-governance-token", price 45.2%float);
      ("dai", price 1%float);
      ("tether", price 1%float);
      ("weth", price 3200%float) ].

(** The surroundings of one sequential call: the clock at entry, how late
    the timer fires, how long the request takes and what it settles to. *)
Record Env : Type := {
  now : Z;
  timer_lag : Z;
  latency : Z;
  reply : NetResult
}.

Record Fetched : Type := {
  result : outcome TokenMarketData;
  state_after : State;
  events : list Event
}.

(** The [try] block of [fetchTokenPrices], run to completion. *)
Definition fetchTokenPrices_try (tokenIds : list string) (e : Env) (s : State)
  : Fetched :=
  let request t s1 :=
    let '(r, s2) := settle tokenIds (reply e) (t + latency e) s1 in
    (r, s2, EvHttpGet (Js.join "," tokenIds) t) in
  match enter tokenIds (now e) s with
  | (CacheHit d, s1) =>
      {| result := Returned d; state_after := s1; events := [] |}
  | (Sleeping ms, s1) =>
      let t := now e + ms + timer_lag e in
      let '(r, s2, ev) := request t (wake t s1) in
      {| result := r; state_after := s2; events := [EvDelay ms; ev] |}
  | (Requesting, s1) =>
      let '(r, s2, ev) := request (now e) s1 in
      {| result := r; state_after := s2; events := [ev] |}
  end.

(** [fetchTokenPrices]: the [catch] of line 99 replaces whatever was thrown
    by [fallbackPrices]. *)
Definition fetchTokenPrices (tokenIds : list string) (e : Env) (s : State)
  : Fetched :=
  let f := fetchTokenPrices_try tokenIds e s in
  match result f with
  | Returned _ => f
  | Thrown _ =>
      {| result := Returned fallbackPrices;
         state_after := state_after f; events := events f |}
  end.

Definition attempts_network (f : Fetched) : bool :=
  existsb (fun ev => match ev with EvHttpGet _ _ => true | EvDelay _ => false end)
          (events f).

(** The [TokenBalance] interface of [api.ts]. *)
Record TokenBalance : Type := {
  symbol : string;
  balance : string;
  contractAddress : option string
}.

(** [prices[key]?.usd || d] *)
Definition usdOr (prices : TokenMarketData) (key : string) (d : float) : float :=
  Js.or_default (usd <$> prices !! key) d.

Definition calculatePortfolioValue {rt : Runtime}
    (tokens : list TokenBalance) (prices : TokenMarketData) : float :=
  fold_left
    (fun total token =>
       (total + parseFloat (balance token)
                * usdOr prices (Js.toLowerCase (symbol token)) 0)%float)
    tokens 0%float.

Definition calculateTotalYield (positions : list DefiPosition) : float :=
  fold_left
    (fun total position => (total + Js.or_default (yield position) 0)%float)
    positions 0%float.

(** [clearCache] *)
Definition clearCache (s : State) : State :=
  {| cache := ∅; lastRequestTime := lastRequestTime s |}.

(** [getCacheStats]; the key array is kept as the set of keys. *)
Record CacheStats : Type := {
  size : nat;
  entries : gset string
}.

Definition getCacheStats (s : State) : CacheStats :=
  {| size := base.size (cache s); entries := dom (cache s) |}.

(** *** The rate-limit wait under the cooperative scheduler

    Callers invoke [fetchTokenPrices] at the instants [arrivals] (in
    non-decreasing order), all missing the cache.  A caller runs its first
    segment at its arrival; a sleeping caller is resumed when its timer
    expires.  [pending] holds the expiry instants of the timers not yet
    fired, oldest first. *)

(** Timers that expire no later than [t] fire before a caller arriving at
    [t] runs: each resumed caller executes line 80. *)
Fixpoint fire (t : Z) (pending : list Z) (s : State) : list Z * State :=
  match pending with
  | [] => ([], s)
  | w :: rest =>
      if w <=? t then fire t rest (wake w s)
      else let '(rest', s') := fire t rest s in (w :: rest', s')
  end.

(** The instant at which each caller's wait is over and its request is
    issued, in the order of the callers. *)
Fixpoint resolveTimes (arrivals : list Z) (pending : list Z) (s : State)
  : list Z :=
  match arrivals with
  | [] => []
  | t :: later =>
      let '(pending1, s1) := fire t pending s in
      match rateLimit t s1 with
      | (Sleeping ms, s2) => (t + ms) :: resolveTimes later (pending1 ++ [t + ms]) s2
      | (_, s2) => t :: resolveTimes later pending1 s2
      end
  end.

End Api.

(** ** utils/web3.ts *)

Module Web3.

(** Read-only queries sent through the provider. *)
Inductive Call : Type :=
| GetBalance (address : string)
| Erc20BalanceOf (token owner : string)
| Erc20Decimals (token : string)
| Erc20Symbol (token : string)
| NpmBalanceOf (owner : string)
| NpmTokenOfOwnerByIndex (owner : string) (index : Z)
| NpmPositions (tokenId : Z)
| AaveGetUserReserveData (asset user : string)
| CTokenBalanceOf (cToken owner : string)
| CTokenExchangeRateStored (cToken : string).

(** What the chain answers; any query may fail. *)
Record Chain : Type := {
  getBalance : string -> outcome Z;
  erc20_balanceOf : string -> string -> outcome Z;
  erc20_decimals : string -> outcome Z;
  erc20_symbol : string -> outcome string;
  npm_balanceOf : string -> outcome Z;
  npm_tokenOfOwnerByIndex : string -> Z -> outcome Z;
  npm_positions : Z -> outcome unit;
  aave_getUserReserveData : string -> string -> outcome Z;
  cToken_balanceOf : string -> string -> outcome Z;
  cToken_exchangeRateStored : string -> outcome Z
}.

(** A computation that logs the queries it sends and may throw. *)
Definition M (A : Type) : Type := (list Call * outcome A)%type.

Definition ret {A} (a : A) : M A := ([], Returned a).

Definition bind {A B} (m : M A) (k : A -> M B) : M B :=
  match m with
  | (l, Returned a) => let '(l', r) := k a in (l ++ l', r)
  | (l, Thrown e) => (l, Thrown e)
  end.

(** [try { m } catch (error) { h error }] *)
Definition try_catch {A} (m : M A) (h : string -> M A) : M A :=
  match m with
  | (l, Thrown e) => let '(l', r) := h e in (l ++ l', r)
  | (l, Returned a) => (l, Returned a)
  end.

Definition call {A} (c : Call) (r : outcome A) : M A := ([c], r).

Definition lift {A} (r : outcome A) : M A := ([], r).

(** [promise.catch(() => d)] *)
Definition catch_default {A} (m : M A) (d : A) : M A :=
  try_catch m (fun _ => ret d).

(** [Promise.all([m1, m2])]: both are started, the first rejection wins. *)
Definition all2 {A B} (m1 : M A) (m2 : M B) : M (A * B) :=
  let '(l1, r1) := m1 in
  let '(l2, r2) := m2 in
  (l1 ++ l2,
   match r1, r2 with
   | Returned a, Returned b => Returned (a, b)
   | Thrown e, _ => Thrown e
   | _, Thrown e => Thrown e
   end).

Notation "'let*' x := m 'in' k" := (bind m (fun x => k))
  (at level 10, x name, m at level 100, k at level 200).

(** A [for] loop whose body updates the array [acc]. *)
Fixpoint forEach {A B} (xs : list A) (body : A -> B -> M B) (acc : B) : M B :=
  match xs with
  | [] => ret acc
  | x :: rest => let* acc' := body x acc in forEach rest body acc'
  end.

Definition calls {A} (m : M A) : list Call := fst m.
Definition value_of {A} (m : M A) : outcome A := snd m.

Record TokenBalanceResult : Type := {
  balance : string;
  symbol : string;
  decimals : Z
}.

Definition zeroBalance : TokenBalanceResult :=
  {| balance := "0"; symbol := ""; decimals := 18 |}.

Definition UNISWAP_V3_POSITION_MANAGER : string :=
  "0xC36442b4a4522E871399CD717aBDD847Ab11FE88".

(** The literal pushed at line 173 and returned at line 192. *)
Definition uniswapExample : DefiPosition :=
  {| protocol := "Uniswap V3"; type := "LP Position"; token := "ETH/USDC";
     amount := "1.2 ETH + 3840 USDC"; value := 7680%float;
     apy := Some 12.5%float; yield := None;
     poolAddress := Some "0x8ad599c3A0ff1De082011EFDDc58f1908eb6e6D8";
     contractAddress := None |}.

(** Lines 264-275. *)
Definition aaveExample : DefiPosition :=
  {| protocol := "Aave"; type := "Supply"; token := "USDC";
     amount := "2000 USDC"; value := 2000%float;
     apy := Some 3.2%float; yield := Some 64%float;
     poolAddress := None;
     contractAddress := Some "0xBcca60bB61934080951369a648Fb03DF4F96263C" |}.

(** Lines 331-342. *)
Definition compoundExample : DefiPosition :=
  {| protocol := "Compound"; type := "Supply"; token := "ETH";
     amount := "0.8 ETH"; value := 2560%float;
     apy := Some 2.8%float; yield := Some 71.68%float;
     poolAddress := None;
     contractAddress := Some "0x4Ddc2D193948926D02f9B1fE9e1daa0718270ED5" |}.

Definition aaveAssets : list (string * string) :=
  [ ("0xC02aaA39b223FE8D0A0e5C4F27eAD9083C756Cc2", "WETH");
    ("0xA0b86a33E6441b8C4C4C4C4C4C4C4C4C4C4C4C4C", "USDC");
    ("0x6B175474E89094C44Da98b954EedeAC495271d0F", "DAI") ].

Record CToken : Type := {
  ct_address : string;
  ct_symbol : string;
  ct_underlying : string
}.

Definition compoundTokens : list CToken :=
  [ {| ct_address := "0x4Ddc2D193948926D02f9B1fE9e1daa0718270ED5";
       ct_symbol := "cETH"; ct_underlying := "ETH" |};
    {| ct_address := "0x39AA39c021dfbaE8faC545936693aC917d5E7563";
       ct_symbol := "cUSDC"; ct_underlying := "USDC" |};
    {| ct_address := "0x5d3a536E4D6DbD6114cc1Ead35777bAB948E3643";
       ct_symbol := "cDAI"; ct_underlying := "DAI" |} ].

Section Readers.
Context {rt : Runtime}.

(** [getProvider()] is [None] when [window.ethereum] is missing. *)
Variable provider : option Chain.

Definition getEthBalance (address : string) : M string :=
  match provider with
  | None => ret "0"
  | Some ch =>
      try_catch
        (let* b := call (GetBalance address) (getBalance ch address) in
         lift (formatEther b))
        (fun _ => ret "0")
  end.

Definition getTokenBalance (tokenAddress walletAddress : string)
  : M TokenBalanceResult :=
  match provider with
  | None => ret zeroBalance
  | Some ch =>
      try_catch
        (if negb (isAddress tokenAddress) then ret zeroBalance
         else if negb (isAddress walletAddress) then ret zeroBalance
         else
           let* b := call (Erc20BalanceOf tokenAddress walletAddress)
                     (erc20_balanceOf ch tokenAddress walletAddress) in
           if b =? 0 then ret zeroBalance
           else
             let* ds := all2
                     (catch_default
                        (call (Erc20Decimals tokenAddress)
                              (erc20_decimals ch tokenAddress)) 18)
                     (catch_default
                        (call (Erc20Symbol tokenAddress)
                              (erc20_symbol ch tokenAddress)) "UNKNOWN") in
             let* text := lift (formatUnits b (fst ds)) in
             ret {| balance := text; symbol := snd ds; decimals := fst ds |})
        (fun _ => ret zeroBalance)
  end.

(** Body of the loop of lines 167-185 for index [i]. *)
Definition uniswapStep (ch : Chain) (walletAddress : string) (i : Z)
    (positions : list DefiPosition) : M (list DefiPosition) :=
  try_catch
    (let* tokenId := call (NpmTokenOfOwnerByIndex walletAddress i)
                     (npm_tokenOfOwnerByIndex ch walletAddress i) in
     let* _ := call (NpmPositions tokenId) (npm_positions ch tokenId) in
     ret (positions ++ [uniswapExample]))
    (fun _ => ret positions).

(** The indices [0 <= i < Math.min(n, 10)]. *)
Definition uniswapIndices (n : Z) : list Z :=
  map Z.of_nat (seq 0 (Z.to_nat (Z.min n 10))).

(** [balance.toNumber()] is evaluated in the loop test; it throws at the
    first test or never, outside the [try] of the loop body. *)
Definition getUniswapPositions (walletAddress : string) : M (list DefiPosition) :=
  match provider with
  | None => ret []
  | Some ch =>
      try_catch
        (try_catch
           (let* b := call (NpmBalanceOf walletAddress) (npm_balanceOf ch walletAddress) in
            if 0 <? b then
              let* n := lift (toNumber b) in
              forEach (uniswapIndices n) (uniswapStep ch walletAddress) []
            else ret [])
           (fun _ => ret [uniswapExample]))
        (fun _ => ret [])
  end.

(** Body of the loop of lines 233-258. *)
Definition aaveStep (ch : Chain) (walletAddress : string)
    (asset : string * string) (positions : list DefiPosition)
  : M (list DefiPosition) :=
  try_catch
    (let* b := call (AaveGetUserReserveData (fst asset) walletAddress)
               (aave_getUserReserveData ch (fst asset) walletAddress) in
     if 0 <? b then
       let* text := lift (formatUnits b 18) in
       if Js.gt (parseFloat text) 0.001%float then
         ret (positions ++
              [ {| protocol := "Aave"; type := "Supply"; token := snd asset;
                   amount := text +:+ " " +:+ snd asset;
                   value := (parseFloat text * 2000)%float;
                   apy := Some 3.2%float;
                   yield := Some (parseFloat text * 64)%float;
                   poolAddress := None;
                   contractAddress := Some (fst asset) |} ])
       else ret positions
     else ret positions)
    (fun _ => ret positions).

Definition getAavePositions (walletAddress : string) : M (list DefiPosition) :=
  match provider with
  | None => ret []
  | Some ch =>
      try_catch
        (try_catch
           (forEach aaveAssets (aaveStep ch walletAddress) [])
           (fun _ => ret [aaveExample]))
        (fun _ => ret [])
  end.

(** Body of the loop of lines 298-327; [parseEther('1')] is [10^18]. *)
Definition compoundStep (ch : Chain) (walletAddress : string)
    (cToken : CToken) (positions : list DefiPosition)
  : M (list DefiPosition) :=
  try_catch
    (let* br := all2
             (call (CTokenBalanceOf (ct_address cToken) walletAddress)
                   (cToken_balanceOf ch (ct_address cToken) walletAddress))
             (call (CTokenExchangeRateStored (ct_address cToken))
                   (cToken_exchangeRateStored ch (ct_address cToken))) in
     if 0 <? fst br then
       let underlyingAmount := Z.quot (fst br * snd br) (10 ^ 18) in
       let* text := lift (formatEther underlyingAmount) in
       if Js.gt (parseFloat text) 0.001%float then
         ret (positions ++
              [ {| protocol := "Compound"; type := "Supply";
                   token := ct_underlying cToken;
                   amount := text +:+ " " +:+ ct_underlying cToken;
                   value := (parseFloat text * 3200)%float;
                   apy := Some 2.8%float;
                   yield := Some (parseFloat text * 71.68)%float;
                   poolAddress := None;
                   contractAddress := Some (ct_address cToken) |} ])
       else ret positions
     else ret positions)
    (fun _ => ret positions).

Definition getCompoundPositions (walletAddress : string) : M (list DefiPosition) :=
  match provider with
  | None => ret []
  | Some ch =>
      try_catch
        (let* positions := forEach compoundTokens (compoundStep ch walletAddress) [] in
         match positions with
         | [] => ret [compoundExample]
         | _ :: _ => ret positions
         end)
        (fun _ => ret [])
  end.

End Readers.

End Web3.

(** ** app/page.tsx *)

Module Page.

(** The [TokenBalance] interface of the page; its field [value] is kept
    apart from the one of [DefiPosition]. *)
Module Token.
Record TokenBalance : Type := {
  symbol : string;
  balance : string;
  price : float;
  value : float
}.
End Token.
Abbreviation TokenBalance := Token.TokenBalance.

Record PortfolioData : Type := {
  totalValue : float;
  tokens : list TokenBalance;
  defiPositions : list DefiPosition;
  totalYield : float
}.

Inductive Toast : Type :=
| ToastLoading (message : string)
| ToastSuccess (message : string)
| ToastError (message : string).

(** Lines 56-94. *)
Definition fetchMockData : PortfolioData :=
  {| totalValue := 15420.50%float;
     tokens :=
       [ {| Token.symbol := "ETH"; Token.balance := "2.5";
            Token.price := 3200%float; Token.value := 8000%float |};
         {| Token.symbol := "USDC"; Token.balance := "5000";
            Token.price := 1%float; Token.value := 5000%float |};
         {| Token.symbol := "UNI"; Token.balance := "100";
            Token.price := 24.2%float; Token.value := 2420%float |} ];
     defiPositions :=
       [ {| protocol := "Uniswap"; type := "LP Position"; token := "ETH/USDC";
            amount := "1.2 ETH + 3840 USDC"; value := 7680%float;
            apy := Some 12.5%float; yield := None;
            poolAddress := None; contractAddress := None |};
         {| protocol := "Aave"; type := "Supply"; token := "USDC";
            amount := "2000 USDC"; value := 2000%float;
            apy := Some 3.2%float; yield := Some 64%float;
            poolAddress := None; contractAddress := None |};
         {| protocol := "Compound"; type := "Supply"; token := "ETH";
            amount := "0.8 ETH"; value := 2560%float;
            apy := Some 2.8%float; yield := Some 71.68%float;
            poolAddress := None; contractAddress := None |} ];
     totalYield := 135.68%float |}.

Definition tokenIds : list string :=
  [ "ethereum"; "uniswap"; "aave"; "compound-governance-token"; "dai";
    "tether"; "weth" ].

Definition commonTokens : list (string * string) :=
  [ ("0x1f9840a85d5aF5bf1D1762F925BDADdC4201F984", "UNI");
    ("0x7Fc66500c84A76Ad7e9c93437bFc5Ac33E2DDaE9", "AAVE");
    ("0xc00e94Cb662C3520282E6f5717214004A7f26888", "COMP");
    ("0x6B175474E89094C44Da98b954EedeAC495271d0F", "DAI");
    ("0xdAC17F958D2ee523a2206206994597C13D831ec7", "USDT");
    ("0xC02aaA39b223FE8D0A0e5C4F27eAD9083C756Cc2", "WETH") ].

(** The functions [fetchRealData] awaits, as it sees them: each settles to
    a value or rejects. *)
Record Sources : Type := {
  fetchTokenPrices : list string -> outcome Api.TokenMarketData;
  getEthBalance : string -> outcome string;
  getTokenBalance : string -> string -> outcome Web3.TokenBalanceResult;
  getUniswapPositions : string -> outcome (list DefiPosition);
  getAavePositions : string -> outcome (list DefiPosition);
  getCompoundPositions : string -> outcome (list DefiPosition)
}.

Definition obind {A B} (m : outcome A) (k : A -> outcome B) : outcome B :=
  match m with
  | Returned a => k a
  | Thrown e => Thrown e
  end.

Notation "'let?' x := m 'in' k" := (obind m (fun x => k))
  (at level 10, x name, m at level 100, k at level 200).

(** [try { m } catch { h }] *)
Definition otry {A} (m : outcome A) (h : A) : outcome A :=
  match m with
  | Returned a => Returned a
  | Thrown _ => Returned h
  end.

(** [Promise.all] of the three readers. *)
Definition all3 {A} (a b c : outcome A) : outcome (A * A * A) :=
  let? x := a in let? y := b in let? z := c in Returned (x, y, z).

Fixpoint oforEach {A B} (xs : list A) (body : A -> B -> outcome B) (acc : B)
  : outcome B :=
  match xs with
  | [] => Returned acc
  | x :: rest => let? acc' := body x acc in oforEach rest body acc'
  end.

(** Lines 143-152: the merge step. *)
Definition merge (tokenBalances : list TokenBalance)
    (uniswapPositions aavePositions compoundPositions : list DefiPosition)
  : PortfolioData :=
  let allPositions := uniswapPositions ++ aavePositions ++ compoundPositions in
  let totalValue :=
    (Js.sum_by Token.value tokenBalances + Js.sum_by value allPositions)%float in
  let totalYield :=
    Js.sum_by (fun pos => Js.or_default (yield pos) 0) allPositions in
  {| totalValue := totalValue; tokens := tokenBalances;
     defiPositions := allPositions; totalYield := totalYield |}.

Section Aggregation.
Context {rt : Runtime}.
Variable src : Sources.

(** Body of the loop of lines 121-137. *)
Definition tokenStep (prices : Api.TokenMarketData) (address : string)
    (token : string * string) (tokenBalances : list TokenBalance)
  : outcome (list TokenBalance) :=
  otry
    (let? balanceData := getTokenBalance src (fst token) address in
     if Js.gt (parseFloat (Web3.balance balanceData)) 0
        && negb (String.eqb (Web3.symbol balanceData) "")
     then
       let price := Api.usdOr prices (Js.toLowerCase (snd token)) 0 in
       let value := (parseFloat (Web3.balance balanceData) * price)%float in
       Returned (tokenBalances ++
                 [ {| Token.symbol := Web3.symbol balanceData;
                      Token.balance := Web3.balance balanceData;
                      Token.price := price; Token.value := value |} ])
     else Returned tokenBalances)
    tokenBalances.

(** Lines 99-120: prices, the native balance and its row. *)
Definition ethRow (prices : Api.TokenMarketData) (ethBalance : string)
  : list TokenBalance :=
  let ethPrice := Api.usdOr prices "ethereum" 3200 in
  let ethValue := (parseFloat ethBalance * ethPrice)%float in
  if Js.gt (parseFloat ethBalance) 0
  then [ {| Token.symbol := "ETH"; Token.balance := ethBalance;
            Token.price := ethPrice; Token.value := ethValue |} ]
  else [].

(** The [try] block of [fetchRealData], lines 98-154. *)
Definition fetchRealData_try (address : string) : outcome PortfolioData :=
  let? prices := fetchTokenPrices src tokenIds in
  let? ethBalance := getEthBalance src address in
  let? tokenBalances :=
    oforEach commonTokens (tokenStep prices address) (ethRow prices ethBalance) in
  let? ps := all3 (getUniswapPositions src address)
                  (getAavePositions src address)
                  (getCompoundPositions src address) in
  Returned (merge tokenBalances (fst (fst ps)) (snd (fst ps)) (snd ps)).

Record Loaded : Type := {
  toasts : list Toast;
  portfolio : PortfolioData
}.

(** [fetchRealData]: the [catch] of line 155 announces the failure and
    returns [fetchMockData()]. *)
Definition fetchRealData (address : string) : Loaded :=
  match fetchRealData_try address with
  | Returned realData =>
      {| toasts := [ ToastLoading "Fetching real blockchain data...";
                     ToastSuccess "Real data loaded successfully!" ];
         portfolio := realData |}
  | Thrown _ =>
      {| toasts := [ ToastLoading "Fetching real blockchain data...";
                     ToastError "Failed to fetch real data, showing mock data instead" ];
         portfolio := fetchMockData |}
  end.

End Aggregation.

(** The sources as the application wires them: [api.ts] and [web3.ts]
    behind one provider, one state of the price module and one run of the
    price request. *)
Definition liveSources {rt : Runtime} (provider : option Web3.Chain)
    (e : Api.Env) (s : Api.State) : Sources :=
  {| fetchTokenPrices := fun ids => Api.result (Api.fetchTokenPrices ids e s);
     getEthBalance := fun a => Web3.value_of (Web3.getEthBalance provider a);
     getTokenBalance := fun t a => Web3.value_of (Web3.getTokenBalance provider t a);
     getUniswapPositions := fun a => Web3.value_of (Web3.getUniswapPositions provider a);
     getAavePositions := fun a => Web3.value_of (Web3.getAavePositions provider a);
     getCompoundPositions := fun a => Web3.value_of (Web3.getCompoundPositions provider a) |}.

End Page.

(** ** An executable runtime

    Plain implementations of the library functions, enough to run the
    model on concrete inputs: addresses are ["0x"] and forty hexadecimal
    digits (no checksum), numbers are printed and read in plain decimal
    notation. *)

Module Reference.

Definition isHexDigit (c : ascii) : bool :=
  let n := nat_of_ascii c in
  ((Nat.leb 48 n && Nat.leb n 57) || (Nat.leb 65 n && Nat.leb n 70)
   || (Nat.leb 97 n && Nat.leb n 102))%bool.

Fixpoint allHex (s : string) : bool :=
  match s with
  | EmptyString => true
  | String c r => isHexDigit c && allHex r
  end.

Definition isAddress (s : string) : bool :=
  match s with
  | String "0" (String "x" r) => (Nat.eqb (String.length r) 40 && allHex r)%bool
  | _ => false
  end.

Definition digitChar (d : Z) : ascii := ascii_of_nat (48 + Z.to_nat d).

Fixpoint natDigits (fuel : nat) (v : Z) (acc : string) : string :=
  match fuel with
  | O => acc
  | S fuel' =>
      let acc' := String (digitChar (v mod 10)) acc in
      if v / 10 =? 0 then acc' else natDigits fuel' (v / 10) acc'
  end.

Definition showNat (v : Z) : string := natDigits (S (Z.to_nat (Z.log2 v))) v "".

(** The [d] decimals of [r], most significant first. *)
Fixpoint fracDigits (d : nat) (r : Z) : list Z :=
  match d with
  | O => []
  | S d' => (r / 10 ^ Z.of_nat d') :: fracDigits d' (r mod 10 ^ Z.of_nat d')
  end.

Fixpoint dropZeros (ds : list Z) : list Z :=
  match ds with
  | 0 :: rest => dropZeros rest
  | _ => ds
  end.

Definition showFrac (ds : list Z) : string :=
  match rev (dropZeros (rev ds)) with
  | [] => "0"
  | ds' => fold_right (fun d s => String (digitChar d) s) "" ds'
  end.

Definition formatUnits (v decimals : Z) : outcome string :=
  if (v <? 0) || (decimals <? 0) then Thrown "invalid value"
  else
    let unit := 10 ^ decimals in
    Returned (showNat (v / unit) +:+ "." +:+
              showFrac (fracDigits (Z.to_nat decimals) (v mod unit))).

Definition toNumber (v : Z) : outcome Z :=
  if v <? 2 ^ 53 then Returned v else Thrown "overflow".

Definition digitOf (c : ascii) : option Z :=
  let n := nat_of_ascii c in
  if (Nat.leb 48 n && Nat.leb n 57)%bool then Some (Z.of_nat n - 48) else None.

(** Reads the leading digits of [s] into [acc]; returns the number read,
    how many digits it took and the rest of the string. *)
Fixpoint readDigits (s : string) (acc : Z) (count : nat) : Z * nat * string :=
  match s with
  | EmptyString => (acc, count, s)
  | String c r =>
      match digitOf c with
      | Some d => readDigits r (10 * acc + d) (S count)
      | None => (acc, count, s)
      end
  end.

Definition floatOfZ (v : Z) : float := PrimFloat.of_uint63 (Uint63.of_Z v).

Definition parseFloat (s : string) : float :=
  let '(i, ni, rest) := readDigits s 0 0 in
  match rest with
  | String "." r =>
      let '(m, nf, _) := readDigits r i 0 in
      if Nat.eqb (ni + nf) 0 then PrimFloat.nan
      else (floatOfZ m / floatOfZ (10 ^ Z.of_nat nf))%float
  | _ => if Nat.eqb ni 0 then PrimFloat.nan else floatOfZ i
  end.

Definition runtime : Runtime :=
  Build_Runtime isAddress formatUnits toNumber parseFloat.

End Reference.

(** * Vocabulary of the statements *)

(** ** Numbers *)

(** [Object.is(v, -0)] *)
Definition isNegZero (v : float) : bool :=
  match PrimFloat.classify v with
  | NZero => true
  | _ => false
  end.

(** A number that is neither [NaN] nor [-0]. *)
Definition ordinary (v : float) : bool :=
  negb (PrimFloat.is_nan v) && negb (isNegZero v).

Definition ordinaryYield (pos : DefiPosition) : bool :=
  match yield pos with
  | Some v => ordinary v
  | None => true
  end.

(** The yield of a position, an absent one counting for [0]. *)
Definition yieldOrZero (pos : DefiPosition) : float :=
  match yield pos with
  | Some v => v
  | None => 0%float
  end.

(** A float that the specification of binary64 sees as [+0], a positive
    finite number or [+infinity]. *)
Definition positiveSF (x : spec_float) : bool :=
  match x with
  | S754_zero false | S754_infinity false | S754_finite false _ _ => true
  | _ => false
  end.

(** ** Cache keys *)

Fixpoint commaFree (s : string) : bool :=
  match s with
  | EmptyString => true
  | String c r => negb (Ascii.eqb c ",") && commaFree r
  end.

(** ** Runs of the price module *)

Section PriceRuns.
Import Api.

Definition unreachable (t : Z) : Env :=
  {| now := t; timer_lag := 0; latency := 10000;
     reply := Rejected "timeout of 10000ms exceeded" |}.

Definition answering (t : Z) (d : TokenMarketData) : Env :=
  {| now := t; timer_lag := 0; latency := 250; reply := Response d |}.

Definition twoEntries : TokenMarketData := {[ "a" := price 1%float ]}.

End PriceRuns.

(** ** Contributions of the items of the reader loops *)

Section Contributions.
Import Web3.
Context {rt : Runtime}.

(** What index [i] of the position loop contributes. *)
Definition uniswapItem (ch : Chain) (walletAddress : string) (i : Z)
  : list DefiPosition :=
  match npm_tokenOfOwnerByIndex ch walletAddress i with
  | Returned tokenId =>
      match npm_positions ch tokenId with
      | Returned _ => [uniswapExample]
      | Thrown _ => []
      end
  | Thrown _ => []
  end.

(** What one reserve contributes. *)
Definition aaveItem (ch : Chain) (walletAddress : string)
    (asset : string * string) : list DefiPosition :=
  match aave_getUserReserveData ch (fst asset) walletAddress with
  | Returned b =>
      if 0 <? b then
        match formatUnits b 18 with
        | Returned text =>
            if Js.gt (parseFloat text) 0.001%float then
              [ {| protocol := "Aave"; type := "Supply"; token := snd asset;
                   amount := text +:+ " " +:+ snd asset;
                   value := (parseFloat text * 2000)%float;
                   apy := Some 3.2%float;
                   yield := Some (parseFloat text * 64)%float;
                   poolAddress := None;
                   contractAddress := Some (fst asset) |} ]
            else []
        | Thrown _ => []
        end
      else []
  | Thrown _ => []
  end.

(** What one cToken contributes. *)
Definition compoundItem (ch : Chain) (walletAddress : string)
    (cToken : CToken) : list DefiPosition :=
  match cToken_balanceOf ch (ct_address cToken) walletAddress,
        cToken_exchangeRateStored ch (ct_address cToken) with
  | Returned b, Returned rate =>
      if 0 <? b then
        match formatEther (Z.quot (b * rate) (10 ^ 18)) with
        | Returned text =>
            if Js.gt (parseFloat text) 0.001%float then
              [ {| protocol := "Compound"; type := "Supply";
                   token := ct_underlying cToken;
                   amount := text +:+ " " +:+ ct_underlying cToken;
                   value := (parseFloat text * 3200)%float;
                   apy := Some 2.8%float;
                   yield := Some (parseFloat text * 71.68)%float;
                   poolAddress := None;
                   contractAddress := Some (ct_address cToken) |} ]
            else []
        | Thrown _ => []
        end
      else []
  | _, _ => []
  end.

End Contributions.

(** ** Chains used to run the readers *)

(** Chains used to run the readers. *)
Definition reverts {A} : outcome A := Thrown "call revert exception".

(** Every query fails. *)
Definition deadChain : Web3.Chain :=
  {| Web3.getBalance := fun _ => reverts;
     Web3.erc20_balanceOf := fun _ _ => reverts;
     Web3.erc20_decimals := fun _ => reverts;
     Web3.erc20_symbol := fun _ => reverts;
     Web3.npm_balanceOf := fun _ => reverts;
     Web3.npm_tokenOfOwnerByIndex := fun _ _ => reverts;
     Web3.npm_positions := fun _ => reverts;
     Web3.aave_getUserReserveData := fun _ _ => reverts;
     Web3.cToken_balanceOf := fun _ _ => reverts;
     Web3.cToken_exchangeRateStored := fun _ => reverts |}.

(** The position count is answered (one NFT), every later query fails. *)
Definition countOnlyChain : Web3.Chain :=
  {| Web3.getBalance := fun _ => reverts;
     Web3.erc20_balanceOf := fun _ _ => reverts;
     Web3.erc20_decimals := fun _ => reverts;
     Web3.erc20_symbol := fun _ => reverts;
     Web3.npm_balanceOf := fun _ => Returned 1;
     Web3.npm_tokenOfOwnerByIndex := fun _ _ => reverts;
     Web3.npm_positions := fun _ => reverts;
     Web3.aave_getUserReserveData := fun _ _ => reverts;
     Web3.cToken_balanceOf := fun _ _ => reverts;
     Web3.cToken_exchangeRateStored := fun _ => reverts |}.

(** 1.5 ETH, none of the listed tokens, 2.5 WETH supplied to Aave, the
    position manager and the cTokens unreachable. *)
Definition fundedChain : Web3.Chain :=
  {| Web3.getBalance := fun _ => Returned 1500000000000000000;
     Web3.erc20_balanceOf := fun _ _ => Returned 0;
     Web3.erc20_decimals := fun _ => Returned 18;
     Web3.erc20_symbol := fun _ => Returned "TKN";
     Web3.npm_balanceOf := fun _ => reverts;
     Web3.npm_tokenOfOwnerByIndex := fun _ _ => reverts;
     Web3.npm_positions := fun _ => reverts;
     Web3.aave_getUserReserveData :=
       fun asset _ =>
         if String.eqb asset "0xC02aaA39b223FE8D0A0e5C4F27eAD9083C756Cc2"
         then Returned 2500000000000000000 else reverts;
     Web3.cToken_balanceOf := fun _ _ => reverts;
     Web3.cToken_exchangeRateStored := fun _ => reverts |}.

(** A token held by the wallet (2.5 units) whose contract answers neither
    [decimals()] nor [symbol()]. *)
Definition bareTokenChain : Web3.Chain :=
  {| Web3.getBalance := fun _ => reverts;
     Web3.erc20_balanceOf := fun _ _ => Returned 2500000000000000000;
     Web3.erc20_decimals := fun _ => reverts;
     Web3.erc20_symbol := fun _ => reverts;
     Web3.npm_balanceOf := fun _ => reverts;
     Web3.npm_tokenOfOwnerByIndex := fun _ _ => reverts;
     Web3.npm_positions := fun _ => reverts;
     Web3.aave_getUserReserveData := fun _ _ => reverts;
     Web3.cToken_balanceOf := fun _ _ => reverts;
     Web3.cToken_exchangeRateStored := fun _ => reverts |}.

Definition someWallet : string := "0x742d35Cc6634C0532925a3b844Bc454e4438f44e".

(** Either of the two queries of a cToken fails. *)
Definition compoundQueryFails (ch : Web3.Chain) (walletAddress : string)
    (cToken : Web3.CToken) : bool :=
  negb (is_returned (Web3.cToken_balanceOf ch (Web3.ct_address cToken) walletAddress)
        && is_returned (Web3.cToken_exchangeRateStored ch (Web3.ct_address cToken))).

(** ** Outcomes of the aggregation *)

(** What [fetchRealData] returns after its [catch]. *)
Definition failedLoad : Page.Loaded :=
  {| Page.toasts :=
       [ Page.ToastLoading "Fetching real blockchain data...";
         Page.ToastError "Failed to fetch real data, showing mock data instead" ];
     Page.portfolio := Page.fetchMockData |}.

(** What [fetchRealData] returns when its [try] block completes with
    [snap]. *)
Definition successfulLoad (snap : Page.PortfolioData) : Page.Loaded :=
  {| Page.toasts :=
       [ Page.ToastLoading "Fetching real blockchain data...";
         Page.ToastSuccess "Real data loaded successfully!" ];
     Page.portfolio := snap |}.

(** The application on [fundedChain] with the price endpoint unreachable. *)
Definition demoSources : Page.Sources :=
  Page.liveSources (rt := Reference.runtime) (Some fundedChain)
    (unreachable 5000) Api.initial.

(** The same, except that the price call itself rejects. *)
Definition pricesRaise : Page.Sources :=
  {| Page.fetchTokenPrices := fun _ => Thrown "prices unavailable";
     Page.getEthBalance := Page.getEthBalance demoSources;
     Page.getTokenBalance := Page.getTokenBalance demoSources;
     Page.getUniswapPositions := Page.getUniswapPositions demoSources;
     Page.getAavePositions := Page.getAavePositions demoSources;
     Page.getCompoundPositions := Page.getCompoundPositions demoSources |}.

Definition demoSnapshot : Page.PortfolioData :=
  Page.merge
    [ {| Page.Token.symbol := "ETH"; Page.Token.balance := "1.5";
         Page.Token.price := 3200%float; Page.Token.value := 4800%float |} ]
    [ Web3.uniswapExample ]
    [ {| protocol := "Aave"; type := "Supply"; token := "WETH";
         amount := "2.5 WETH"; value := 5000%float;
         apy := Some 3.2%float; yield := Some 160%float;
         poolAddress := None;
         contractAddress := Some "0xC02aaA39b223FE8D0A0e5C4F27eAD9083C756Cc2" |} ]
    [ Web3.compoundExample ].

(** * The rest of the modules

    The functions of [api.ts], [web3.ts] and [page.tsx] that the
    statements above do not reach. *)

(** ** [fetchTokenData] ([api.ts]) *)

Module Market.

Record TokenPrice : Type := {
  id : string;
  symbol : string;
  name : string;
  current_price : float;
  price_change_percentage_24h : float;
  market_cap : float;
  total_volume : float
}.

(** What the request to [/coins/markets] settles to. *)
Inductive NetResult : Type :=
| Response (d : list TokenPrice)
| Rejected (e : string).

Record Env : Type := {
  now : Z;
  timer_lag : Z;
  reply : NetResult
}.

Record Fetched : Type := {
  result : outcome (list TokenPrice);
  state_after : Api.State;
  events : list Api.Event
}.

(** Lines 139-143: the data of the response, or the rejection thrown
    again by the [catch]. *)
Definition settle (r : NetResult) : outcome (list TokenPrice) :=
  match r with
  | Response d => Returned d
  | Rejected e => Thrown e
  end.

(** [fetchTokenData]: the rate limiter of lines 121-125 on the state it
    shares with [fetchTokenPrices], then the request. *)
Definition fetchTokenData (tokenIds : list string) (e : Env) (s : Api.State)
  : Fetched :=
  match Api.rateLimit (now e) s with
  | (Api.Sleeping ms, s1) =>
      let t := now e + ms + timer_lag e in
      {| result := settle (reply e);
         state_after := Api.wake t s1;
         events := [Api.EvDelay ms; Api.EvHttpGet (Js.join "," tokenIds) t] |}
  | (_, s1) =>
      {| result := settle (reply e);
         state_after := s1;
         events := [Api.EvHttpGet (Js.join "," tokenIds) (now e)] |}
  end.

End Market.

(** The instant of the request among the effects of a call. *)
Fixpoint requestTime (evs : list Api.Event) : option Z :=
  match evs with
  | [] => None
  | Api.EvHttpGet _ t :: _ => Some t
  | Api.EvDelay _ :: rest => requestTime rest
  end.

(** ** The demonstration generators ([api.ts])

    [random n] is what the call number [n] of [Math.random()] returns
    (calls are numbered from 0 in evaluation order); [toFixed] is
    [Number.prototype.toFixed]. *)

Module Mock.

Section Generators.
Variable toFixed : float -> nat -> string.
Variable random : nat -> float.

(** [fetchWalletBalances], lines 155-190. *)
Definition fetchWalletBalances : list Api.TokenBalance :=
  let mockBalances :=
    [ {| Api.symbol := "ETH";
         Api.balance := toFixed (random 0 * 5 + 0.1)%float 4;
         Api.contractAddress := None |};
      {| Api.symbol := "USDC";
         Api.balance := toFixed (random 1 * 10000 + 100)%float 2;
         Api.contractAddress := Some "0xA0b86a33E6441b8C4C4C4C4C4C4C4C4C4C4C4C4C" |};
      {| Api.symbol := "UNI";
         Api.balance := toFixed (random 2 * 200 + 10)%float 2;
         Api.contractAddress := Some "0x1f9840a85d5aF5bf1D1762F925BDADdC4201F984" |} ] in
  let '(withAave, n) :=
    if Js.gt (random 3) 0.5
    then (mockBalances ++
          [ {| Api.symbol := "AAVE";
               Api.balance := toFixed (random 4 * 50 + 1)%float 2;
               Api.contractAddress := Some "0x7Fc66500c84A76Ad7e9c93437bFc5Ac33E2DDaE9" |} ],
          5%nat)
    else (mockBalances, 4%nat) in
  if Js.gt (random n) 0.7
  then withAave ++
       [ {| Api.symbol := "COMP";
            Api.balance := toFixed (random (S n) * 20 + 1)%float 2;
            Api.contractAddress := Some "0xc00e94Cb662C3520282E6f5717214004A7f26888" |} ]
  else withAave.

(** [fetchDefiPositions], lines 206-247. *)
Definition fetchDefiPositions : list DefiPosition :=
  let '(uniswap, n1) :=
    if Js.gt (random 0) 0.3
    then ([ {| protocol := "Uniswap V3"; type := "LP Position"; token := "ETH/USDC";
               amount := toFixed (random 1 * 2 + 0.5)%float 2 +:+ " ETH + " +:+
                         toFixed (random 2 * 5000 + 1000)%float 0 +:+ " USDC";
               value := (random 3 * 10000 + 2000)%float;
               apy := Some (random 4 * 20 + 5)%float;
               yield := Some (random 5 * 200 + 50)%float;
               poolAddress := None; contractAddress := None |} ], 6%nat)
    else ([], 1%nat) in
  let '(aave, n2) :=
    if Js.gt (random n1) 0.4
    then (uniswap ++
          [ {| protocol := "Aave"; type := "Supply"; token := "USDC";
               amount := toFixed (random (n1 + 1) * 5000 + 1000)%float 0 +:+ " USDC";
               value := (random (n1 + 2) * 5000 + 1000)%float;
               apy := Some (random (n1 + 3) * 5 + 1)%float;
               yield := Some (random (n1 + 4) * 100 + 20)%float;
               poolAddress := None; contractAddress := None |} ], (n1 + 5)%nat)
    else (uniswap, S n1) in
  if Js.gt (random n2) 0.5
  then aave ++
       [ {| protocol := "Compound"; type := "Supply"; token := "ETH";
            amount := toFixed (random (n2 + 1) * 1 + 0.1)%float 2 +:+ " ETH";
            value := (random (n2 + 2) * 3000 + 500)%float;
            apy := Some (random (n2 + 3) * 3 + 1)%float;
            yield := Some (random (n2 + 4) * 50 + 10)%float;
            poolAddress := None; contractAddress := None |} ]
  else aave.

End Generators.

End Mock.

(** ** [formatAddress] ([web3.ts])

    Strings are compared on their ASCII characters, which is what
    addresses are made of. *)

Module Display.

(** [s.slice(0, n)] *)
Definition sliceTo (n : nat) (s : string) : string := String.substring 0 n s.

(** [s.slice(-n)] *)
Definition sliceLast (n : nat) (s : string) : string :=
  String.substring (String.length s - n) n s.

Definition formatAddress (address : string) : string :=
  sliceTo 6 address +:+ "..." +:+ sliceLast 4 address.

End Display.

(** ** The handlers of the page ([page.tsx])

    A handler is a closure of the render that created it: it reads the
    state of that render, and the state it sets is seen by the next
    render only.  A handler is run to its end, alone. *)

Module Ui.

Inductive DataSource : Type := Mock | Real.

Record State : Type := {
  isConnected : bool;
  walletAddress : string;
  portfolioData : Page.PortfolioData;
  isLoading : bool;
  dataSource : DataSource
}.

Definition emptyPortfolio : Page.PortfolioData :=
  {| Page.totalValue := 0%float; Page.tokens := [];
     Page.defiPositions := []; Page.totalYield := 0%float |}.

(** The first render, lines 45-54. *)
Definition initial : State :=
  {| isConnected := false; walletAddress := ""; portfolioData := emptyPortfolio;
     isLoading := false; dataSource := Real |}.

Section Handlers.
Context {rt : Runtime}.
Variable src : Page.Sources.

(** [fetchPortfolioData], lines 161-172; [closed] is the [dataSource] of
    the render whose callback is running, [ui] the state being updated. *)
Definition fetchPortfolioData (closed : DataSource) (address : string)
    (ui : State) : State * list Page.Toast :=
  let '(data, toasts) :=
    match closed with
    | Real =>
        let loaded := Page.fetchRealData src address in
        (Page.portfolio loaded, Page.toasts loaded)
    | Mock =>
        (Page.fetchMockData, [Page.ToastSuccess "Mock data loaded successfully!"])
    end in
  ({| isConnected := isConnected ui; walletAddress := walletAddress ui;
      portfolioData := data; isLoading := false; dataSource := dataSource ui |},
   toasts).

(** [isConnected && walletAddress] *)
Definition hasWallet (ui : State) : bool :=
  isConnected ui && negb (String.eqb (walletAddress ui) "").

(** [refreshData], lines 235-239. *)
Definition refreshData (ui : State) : State * list Page.Toast :=
  if hasWallet ui
  then fetchPortfolioData (dataSource ui) (walletAddress ui) ui
  else (ui, []).

(** [toggleDataSource], lines 227-233: [setDataSource] first, then the
    callback of the current render. *)
Definition toggleDataSource (ui : State) : State * list Page.Toast :=
  let newSource := match dataSource ui with Mock => Real | Real => Mock end in
  let ui1 :=
    {| isConnected := isConnected ui; walletAddress := walletAddress ui;
       portfolioData := portfolioData ui; isLoading := isLoading ui;
       dataSource := newSource |} in
  if hasWallet ui
  then fetchPortfolioData (dataSource ui) (walletAddress ui) ui1
  else (ui1, []).

End Handlers.

End Ui.

(** ** Vocabulary of the further statements *)

Section MoreContributions.
Context {rt : Runtime}.


(** The two queries of a cToken. *)
Definition compoundQueries (walletAddress : string) (cToken : Web3.CToken)
  : list Web3.Call :=
  [ Web3.CTokenBalanceOf (Web3.ct_address cToken) walletAddress;
    Web3.CTokenExchangeRateStored (Web3.ct_address cToken) ].

(** The row one listed token contributes to the snapshot. *)
Definition tokenRows (src : Page.Sources) (prices : Api.TokenMarketData)
    (address : string) (token : string * string) : list Page.TokenBalance :=
  match Page.getTokenBalance src (fst token) address with
  | Returned balanceData =>
      if Js.gt (parseFloat (Web3.balance balanceData)) 0
         && negb (String.eqb (Web3.symbol balanceData) "")
      then [ {| Page.Token.symbol := Web3.symbol balanceData;
                Page.Token.balance := Web3.balance balanceData;
                Page.Token.price :=
                  Api.usdOr prices (Js.toLowerCase (snd token)) 0;
                Page.Token.value :=
                  (parseFloat (Web3.balance balanceData)
                   * Api.usdOr prices (Js.toLowerCase (snd token)) 0)%float |} ]
      else []
  | Thrown _ => []
  end.

End MoreContributions.

(** A position whose yield, when present, is [+0], positive or
    [+infinity]. *)
Definition positiveYield (pos : DefiPosition) : bool :=
  match yield pos with
  | Some v => positiveSF (Prim2SF v)
  | None => true
  end.

(** The states the price module goes through, from the fresh module, with
    the number of calls of [fetchTokenPrices] made so far. *)
Inductive Run : Api.State -> nat -> Prop :=
| run_initial : Run Api.initial 0
| run_prices (s : Api.State) (n : nat) (ids : list string) (e : Api.Env) :
    Run s n -> Run (Api.state_after (Api.fetchTokenPrices ids e s)) (S n)
| run_market (s : Api.State) (n : nat) (ids : list string) (e : Market.Env) :
    Run s n -> Run (Market.state_after (Market.fetchTokenData ids e s)) n
| run_clear (s : Api.State) (n : nat) :
    Run s n -> Run (Api.clearCache s) n.

(** A connected page showing the demonstration data. *)
Definition connectedMock : Ui.State :=
  {| Ui.isConnected := true; Ui.walletAddress := someWallet;
     Ui.portfolioData := Page.fetchMockData; Ui.isLoading := false;
     Ui.dataSource := Ui.Mock |}.

(** A market-data request that is rejected. *)
Definition marketDown (t : Z) : Market.Env :=
  {| Market.now := t; Market.timer_lag := 0;
     Market.reply := Market.Rejected "Request failed with status code 429" |}.

(** Unfolds a reader on every answer of the chain. *)
Ltac run_reader :=
  unfold Web3.calls, Web3.value_of, Web3.try_catch, Web3.catch_default,
    Web3.bind, Web3.all2, Web3.call, Web3.lift, Web3.ret; simpl;
  repeat match goal with
         | |- context [match ?x with _ => _ end] =>
             lazymatch x with
             | context [match _ with _ => _ end] => fail
             | _ => destruct x eqn:?; simpl
             end
         end.

(** * Properties *)

(** Runs a loop body on every answer of the chain. *)
Ltac run_body :=
  unfold Web3.value_of, Web3.try_catch, Web3.bind, Web3.all2, Web3.call,
    Web3.lift, Web3.ret; simpl;
  repeat match goal with
         | |- context [match ?x with _ => _ end] =>
             lazymatch x with
             | context [match _ with _ => _ end] => fail
             | _ => destruct x; simpl
             end
         end;
  rewrite ?app_nil_r; reflexivity.

(** ** JavaScript numbers *)

Lemma falsy_ordinary_is_zero (v : float) :
  ordinary v = true -> Js.truthy v = false -> v = 0%float.
Proof.
  unfold ordinary, Js.truthy, isNegZero.
  intros Hord Hfalsy.
  apply andb_true_iff in Hord as [Hnan Hneg].
  apply negb_true_iff in Hnan.
  apply negb_false_iff in Hfalsy.
  rewrite Hnan, orb_false_r in Hfalsy.
  rewrite FloatAxioms.eqb_spec in Hfalsy.
  rewrite FloatAxioms.classify_spec in Hneg.
  rewrite <- (SF2Prim_Prim2SF v).
  replace (Prim2SF 0) with (S754_zero false) in Hfalsy by reflexivity.
  destruct (Prim2SF v) as [[|] | [|] | | [|] m ex];
    try discriminate; reflexivity.
Qed.

Lemma or_default_ordinary (pos : DefiPosition) :
  ordinaryYield pos = true -> Js.or_default (yield pos) 0 = yieldOrZero pos.
Proof.
  unfold ordinaryYield, yieldOrZero, Js.or_default.
  destruct (yield pos) as [v |]; [| reflexivity].
  intros Hord. destruct (Js.truthy v) eqn:Ht; [reflexivity |].
  symmetry. now apply falsy_ordinary_is_zero.
Qed.

Lemma Returned_inj {A} (a b : A) : Returned a = Returned b -> a = b.
Proof. now intros [= ->]. Qed.

Lemma fold_sum_ext {A} (f g : A -> float) (xs : list A) (acc : float) :
  Forall (fun x => f x = g x) xs ->
  fold_left (fun sum x => (sum + f x)%float) xs acc
  = fold_left (fun sum x => (sum + g x)%float) xs acc.
Proof.
  intros Hall. revert acc.
  induction Hall as [| x xs Hx _ IH]; intros acc; simpl; [reflexivity |].
  rewrite Hx. apply IH.
Qed.

Lemma sum_by_ext {A} (f g : A -> float) (xs : list A) :
  Forall (fun x => f x = g x) xs -> Js.sum_by f xs = Js.sum_by g xs.
Proof. apply fold_sum_ext. Qed.

(** *** Products of positive numbers

    Rounding a non-negative mantissa never produces [NaN] nor a negative
    number: shifting and rounding to nearest keep the mantissa
    non-negative. *)

Lemma shr_1_nonneg (mrs : shr_record) : 0 <= shr_m mrs -> 0 <= shr_m (shr_1 mrs).
Proof.
  destruct mrs as [m r s]. simpl.
  destruct m as [| [p | p |] | p]; simpl; lia.
Qed.

Lemma iter_pos_nonneg (n : positive) (mrs : shr_record) :
  0 <= shr_m mrs -> 0 <= shr_m (SpecFloat.iter_pos shr_1 n mrs).
Proof.
  revert mrs. induction n as [n IH | n IH |]; intros mrs Hm; simpl.
  - apply IH, IH, shr_1_nonneg, Hm.
  - apply IH, IH, Hm.
  - apply shr_1_nonneg, Hm.
Qed.

Lemma shr_fexp_nonneg (m e : Z) (l : location) :
  0 <= m -> 0 <= shr_m (fst (shr_fexp prec emax m e l)).
Proof.
  intros Hm. unfold shr_fexp, shr.
  assert (H0 : 0 <= shr_m (shr_record_of_loc m l)).
  { destruct l as [| []]; exact Hm. }
  destruct (fexp prec emax (Zdigits2 m + e) - e); simpl; auto.
  now apply iter_pos_nonneg.
Qed.

Lemma round_nearest_even_nonneg (m : Z) (l : location) :
  0 <= m -> 0 <= round_nearest_even m l.
Proof.
  intros Hm. destruct l as [| []]; simpl; try lia.
  destruct (Z.even m); lia.
Qed.

Lemma binary_round_aux_positive (m e : Z) (l : location) :
  0 <= m -> positiveSF (binary_round_aux prec emax false m e l) = true.
Proof.
  intros Hm. unfold binary_round_aux.
  pose proof (shr_fexp_nonneg m e l Hm) as H1.
  destruct (shr_fexp prec emax m e l) as [mrs' e']. simpl in H1.
  pose proof (shr_fexp_nonneg _ e' loc_Exact
                (round_nearest_even_nonneg _ (loc_of_shr_record mrs') H1)) as H2.
  destruct (shr_fexp prec emax _ e' loc_Exact) as [mrs'' e'']. simpl in H2.
  destruct (shr_m mrs'') as [| p | p]; [reflexivity | | lia].
  now destruct (e'' <=? emax - prec).
Qed.

Lemma SFltb_finite_positive (m : positive) (e : Z) (x : spec_float) :
  SFltb (S754_finite false m e) x = true ->
  x = S754_infinity false \/ exists m' e', x = S754_finite false m' e'.
Proof.
  unfold SFltb.
  destruct x as [[|] | [|] | | [|] m' e']; simpl; try discriminate; eauto.
Qed.

Lemma SFcompare_refl_positive (x : spec_float) :
  positiveSF x = true -> SFcompare x x = Some Eq.
Proof.
  destruct x as [[|] | [|] | | [|] m e]; simpl; try discriminate; try reflexivity.
  intros _. now rewrite Z.compare_refl, Pos.compare_cont_refl.
Qed.

Lemma ordinary_of_positiveSF (v : float) :
  positiveSF (Prim2SF v) = true -> ordinary v = true.
Proof.
  intros Hpos. unfold ordinary, is_nan, isNegZero.
  rewrite FloatAxioms.eqb_spec, FloatAxioms.classify_spec.
  unfold SFeqb. rewrite (SFcompare_refl_positive _ Hpos). simpl.
  destruct (Prim2SF v) as [[|] | [|] | | [|] m e]; try discriminate; try reflexivity.
  unfold SF64classify, SFclassify. now destruct (_ =? _).
Qed.

(** An amount above the display threshold [0.001], multiplied by a
    positive constant, is neither [NaN] nor [-0]. *)
Lemma scaled_amount_ordinary (x k : float) (mk : positive) (ek : Z) :
  Prim2SF k = S754_finite false mk ek ->
  Js.gt x 0.001 = true ->
  ordinary (x * k) = true.
Proof.
  intros Hk Hgt. apply ordinary_of_positiveSF.
  rewrite FloatAxioms.mul_spec, Hk. unfold Js.gt in Hgt.
  rewrite FloatAxioms.ltb_spec in Hgt.
  set (c := Prim2SF 0.001) in Hgt. vm_compute in c. subst c.
  destruct (SFltb_finite_positive _ _ _ Hgt) as [-> | (m' & e' & ->)].
  - reflexivity.
  - simpl. now apply binary_round_aux_positive.
Qed.

(** ** The price module ([api.ts]) *)

Section PriceModule.
Import Api.

Lemma fetch_hit (tokenIds : list string) (e : Env) (s : State) (d : TokenMarketData) :
  cached tokenIds (now e) s = Some d ->
  fetchTokenPrices tokenIds e s
  = {| result := Returned d; state_after := s; events := [] |}.
Proof.
  intros Hc. unfold fetchTokenPrices, fetchTokenPrices_try, enter.
  rewrite Hc. reflexivity.
Qed.

(** On a miss the request is issued, whatever the rate limiter decides. *)
Lemma fetch_miss (tokenIds : list string) (e : Env) (s : State) :
  cached tokenIds (now e) s = None ->
  exists t ev,
    events (fetchTokenPrices tokenIds e s) = ev ++ [EvHttpGet (Js.join "," tokenIds) t]
    /\ match reply e with
       | Response d =>
           result (fetchTokenPrices tokenIds e s) = Returned d
           /\ cache (state_after (fetchTokenPrices tokenIds e s))
              = <[cacheKey tokenIds := {| data := d; timestamp := t + latency e |}]> (cache s)
       | Rejected _ =>
           result (fetchTokenPrices tokenIds e s) = Returned fallbackPrices
           /\ cache (state_after (fetchTokenPrices tokenIds e s)) = cache s
       end.
Proof.
  intros Hc. unfold fetchTokenPrices, fetchTokenPrices_try, enter, rateLimit.
  rewrite Hc.
  destruct (now e - lastRequestTime s <? MIN_REQUEST_INTERVAL).
  - eexists _, [EvDelay _]. destruct (reply e); simpl; auto.
  - exists (now e), []. destruct (reply e); simpl; auto.
Qed.

Lemma attempts_network_app (f : Fetched) (ev : list Event) (ids : string) (t : Z) :
  events f = ev ++ [EvHttpGet ids t] -> attempts_network f = true.
Proof.
  intros Hev. unfold attempts_network. rewrite Hev, existsb_app. simpl.
  apply orb_true_r.
Qed.

Lemma fetch_miss_attempts (tokenIds : list string) (e : Env) (s : State) :
  cached tokenIds (now e) s = None ->
  attempts_network (fetchTokenPrices tokenIds e s) = true.
Proof.
  intros Hc. destruct (fetch_miss tokenIds e s Hc) as (t & ev & Hev & _).
  eapply attempts_network_app, Hev.
Qed.

(** A miss stays a miss as the clock advances over an unchanged cache. *)
Lemma cached_none_later (tokenIds : list string) (t t' : Z) (s s' : State) :
  cache s' = cache s -> t <= t' ->
  cached tokenIds t s = None -> cached tokenIds t' s' = None.
Proof.
  unfold cached. intros -> Hle.
  destruct (cache s !! cacheKey tokenIds) as [c |]; [| reflexivity].
  destruct (t - timestamp c <? CACHE_DURATION) eqn:Hlt; [discriminate |].
  intros _. apply Z.ltb_ge in Hlt.
  destruct (t' - timestamp c <? CACHE_DURATION) eqn:Hlt'; [| reflexivity].
  apply Z.ltb_lt in Hlt'. lia.
Qed.

(** C2. [fetchTokenPrices] never throws, for any list of ids, clock, state
    and network behaviour; when the cache misses and the request is
    rejected it returns [fallbackPrices], where [ethereum.usd] is 3200 and
    [uniswap.usd] is 24.2. *)
Theorem fetchTokenPrices_falls_back (tokenIds : list string) (e : Env) (s : State) :
  (exists d, result (fetchTokenPrices tokenIds e s) = Returned d)
  /\ (cached tokenIds (now e) s = None ->
      (exists msg, reply e = Rejected msg) ->
      result (fetchTokenPrices tokenIds e s) = Returned fallbackPrices)
  /\ usd <$> fallbackPrices !! "ethereum" = Some 3200%float
  /\ usd <$> fallbackPrices !! "uniswap" = Some 24.2%float.
Proof.
  split; [| split; [| split; reflexivity]].
  - unfold fetchTokenPrices.
    destruct (result (fetchTokenPrices_try tokenIds e s)) eqn:Hr; simpl; eauto.
  - intros Hc [msg Hmsg].
    destruct (fetch_miss tokenIds e s Hc) as (t & ev & _ & Hres).
    rewrite Hmsg in Hres. apply Hres.
Qed.

Lemma fetchTokenPrices_falls_back_witness :
  result (fetchTokenPrices ["ethereum"; "uniswap"] (unreachable 1700000000000) initial)
  = Returned fallbackPrices.
Proof.
  apply (proj1 (proj2 (fetchTokenPrices_falls_back
                         ["ethereum"; "uniswap"] (unreachable 1700000000000) initial))).
  - reflexivity.
  - eexists. reflexivity.
Defined.

End PriceModule.

Section PriceCache.
Import Api.

Lemma lookup_after_fetch_other (ids ids' : list string) (e : Env) (s : State) :
  cacheKey ids' <> cacheKey ids ->
  cache (state_after (fetchTokenPrices ids' e s)) !! cacheKey ids
  = cache s !! cacheKey ids.
Proof.
  intros Hne.
  destruct (cached ids' (now e) s) as [d |] eqn:Hc.
  - now rewrite (fetch_hit _ _ _ _ Hc).
  - destruct (fetch_miss ids' e s Hc) as (t & ev & _ & Hres).
    destruct (reply e); destruct Hres as [_ ->]; [| reflexivity].
    now apply lookup_insert_ne.
Qed.

(** C5. After a fetch has written [d] under a key, a read of that key
    returns exactly [d] (no request, state untouched) while less than
    [CACHE_DURATION] has elapsed since the write.  From then on the read
    is a miss and a request is issued, yet the expired entry stays in the
    map: a rejected request leaves it there, only a new response for that
    key overwrites it, requests for other keys never touch it, and
    [clearCache] removes it. *)
Theorem cache_entry_lifetime (tokenIds : list string) (s0 : State) (e0 : Env)
    (d : TokenMarketData) :
  cached tokenIds (now e0) s0 = None ->
  reply e0 = Response d ->
  let s := state_after (fetchTokenPrices tokenIds e0 s0) in
  exists written,
    cache s !! cacheKey tokenIds = Some {| data := d; timestamp := written |}
    /\ (forall e, now e - written < CACHE_DURATION ->
        fetchTokenPrices tokenIds e s
        = {| result := Returned d; state_after := s; events := [] |})
    /\ (forall e, CACHE_DURATION <= now e - written ->
        attempts_network (fetchTokenPrices tokenIds e s) = true
        /\ (forall msg, reply e = Rejected msg ->
            cache (state_after (fetchTokenPrices tokenIds e s)) !! cacheKey tokenIds
            = Some {| data := d; timestamp := written |})
        /\ (forall d', reply e = Response d' ->
            exists t',
              cache (state_after (fetchTokenPrices tokenIds e s)) !! cacheKey tokenIds
              = Some {| data := d'; timestamp := t' |}))
    /\ (forall ids' e, cacheKey ids' <> cacheKey tokenIds ->
        cache (state_after (fetchTokenPrices ids' e s)) !! cacheKey tokenIds
        = Some {| data := d; timestamp := written |})
    /\ cache (clearCache s) !! cacheKey tokenIds = None.
Proof.
  intros Hmiss Hreply s.
  destruct (fetch_miss tokenIds e0 s0 Hmiss) as (t & ev & _ & Hres).
  rewrite Hreply in Hres. destruct Hres as [_ Hcache]. fold s in Hcache.
  exists (t + latency e0).
  assert (Hentry : cache s !! cacheKey tokenIds
                   = Some {| data := d; timestamp := t + latency e0 |}).
  { rewrite Hcache. apply lookup_insert_eq. }
  split; [exact Hentry |].
  split; [| split; [| split]].
  - intros e Hfresh. apply fetch_hit. unfold cached. rewrite Hentry. simpl.
    apply Z.ltb_lt in Hfresh. now rewrite Hfresh.
  - intros e Hold.
    assert (Hc : cached tokenIds (now e) s = None).
    { unfold cached. rewrite Hentry. simpl.
      apply Z.ltb_ge in Hold. now rewrite Hold. }
    split; [now apply fetch_miss_attempts |].
    destruct (fetch_miss tokenIds e s Hc) as (t' & ev' & _ & Hres).
    split.
    + intros msg Hmsg. rewrite Hmsg in Hres. destruct Hres as [_ ->].
      exact Hentry.
    + intros d' Hd'. rewrite Hd' in Hres. destruct Hres as [_ ->].
      eexists. apply lookup_insert_eq.
  - intros ids' e Hne. now rewrite lookup_after_fetch_other.
  - reflexivity.
Qed.

Lemma cache_entry_lifetime_witness :
  exists written,
    cache (state_after (fetchTokenPrices ["ethereum"] (answering 5000 fallbackPrices) initial))
      !! cacheKey ["ethereum"]
    = Some {| data := fallbackPrices; timestamp := written |}.
Proof.
  destruct (cache_entry_lifetime ["ethereum"] initial (answering 5000 fallbackPrices)
              fallbackPrices eq_refl eq_refl) as (written & Hw & _).
  exists written. exact Hw.
Defined.

(** C10. When the cache misses and the request is rejected, the call
    returns the fallback table without storing it: the cache map is the
    one it was, [getCacheStats] reports the same size, and any later call
    with the same ids misses again and issues a request. *)
Theorem failed_fetch_leaves_cache (tokenIds : list string) (e : Env) (s : State)
    (msg : string) :
  cached tokenIds (now e) s = None ->
  reply e = Rejected msg ->
  let f := fetchTokenPrices tokenIds e s in
  result f = Returned fallbackPrices
  /\ cache (state_after f) = cache s
  /\ size (getCacheStats (state_after f)) = size (getCacheStats s)
  /\ entries (getCacheStats (state_after f)) = entries (getCacheStats s)
  /\ (forall e', now e <= now e' ->
      attempts_network (fetchTokenPrices tokenIds e' (state_after f)) = true).
Proof.
  intros Hmiss Hreply f.
  destruct (fetch_miss tokenIds e s Hmiss) as (t & ev & _ & Hres).
  rewrite Hreply in Hres. destruct Hres as [Hr Hcache]. fold f in Hr, Hcache.
  split; [exact Hr |]. split; [exact Hcache |].
  unfold getCacheStats. simpl. rewrite Hcache.
  split; [reflexivity |]. split; [reflexivity |].
  intros e' Hle. apply fetch_miss_attempts.
  now apply (cached_none_later tokenIds (now e) (now e') s).
Qed.

Lemma failed_fetch_leaves_cache_witness :
  size (getCacheStats
          (state_after (fetchTokenPrices ["ethereum"; "uniswap"] (unreachable 5000) initial)))
  = size (getCacheStats initial).
Proof.
  apply (failed_fetch_leaves_cache ["ethereum"; "uniswap"] (unreachable 5000) initial
           "timeout of 10000ms exceeded" eq_refl eq_refl).
Defined.

End PriceCache.

Section CacheKeys.
Import Api.

Lemma append_empty (s : string) : "" +:+ s = s.
Proof. reflexivity. Qed.

Lemma append_cons (c : ascii) (r s : string) :
  String c r +:+ s = String c (r +:+ s).
Proof. reflexivity. Qed.

(** Two comma-free heads followed by a comma are read back unambiguously. *)
Lemma comma_split (x y r1 r2 : string) :
  commaFree x = true -> commaFree y = true ->
  x +:+ "," +:+ r1 = y +:+ "," +:+ r2 -> x = y /\ r1 = r2.
Proof.
  revert y. induction x as [| c x IH]; intros [| c' y] Hx Hy Heq;
    repeat (rewrite append_empty in Heq || rewrite append_cons in Heq);
    simpl in Hx, Hy.
  - injection Heq as ->. now split.
  - injection Heq as <- _. now rewrite Ascii.eqb_refl in Hy.
  - injection Heq as -> _. now rewrite Ascii.eqb_refl in Hx.
  - injection Heq as -> Heq.
    apply andb_true_iff in Hx as [_ Hx]. apply andb_true_iff in Hy as [_ Hy].
    destruct (IH y Hx Hy Heq) as [-> ->]. now split.
Qed.

Lemma join_cons (x y : string) (rest : list string) :
  Js.join "," (x :: y :: rest) = x +:+ "," +:+ Js.join "," (y :: rest).
Proof. reflexivity. Qed.

Lemma join_injective (ids1 ids2 : list string) :
  Forall (fun id => commaFree id = true) ids1 ->
  Forall (fun id => commaFree id = true) ids2 ->
  length ids1 = length ids2 ->
  Js.join "," ids1 = Js.join "," ids2 -> ids1 = ids2.
Proof.
  intros H1. revert ids2.
  induction H1 as [| x rest1 Hx Hrest1 IH]; intros ids2 H2 Hlen Heq.
  - destruct ids2; [reflexivity | discriminate].
  - destruct H2 as [| y rest2 Hy Hrest2]; [discriminate |].
    injection Hlen as Hlen.
    destruct rest1 as [| x' rest1], rest2 as [| y' rest2]; try discriminate.
    + simpl in Heq. now subst.
    + rewrite !join_cons in Heq.
      destruct (comma_split _ _ _ _ Hx Hy Heq) as [-> Hrest].
      f_equal. now apply IH.
Qed.

Lemma cacheKey_injective (ids1 ids2 : list string) :
  Forall (fun id => commaFree id = true) ids1 ->
  Forall (fun id => commaFree id = true) ids2 ->
  length ids1 = length ids2 ->
  cacheKey ids1 = cacheKey ids2 -> ids1 = ids2.
Proof.
  intros H1 H2 Hlen Hkey. apply join_injective; auto.
  unfold cacheKey in Hkey. rewrite !append_cons, append_empty in Hkey.
  now simplify_eq.
Qed.

(** C6 as stated does not hold: the ids ["a"] and ["a,a"], listed in the
    two possible orders, are joined into the same key, and the second
    request is served from the entry stored by the first. *)
Lemma cacheKey_order_collision :
  let ids1 := ["a"; "a,a"] in
  let ids2 := ["a,a"; "a"] in
  Permutation ids1 ids2
  /\ ids1 <> ids2
  /\ cacheKey ids1 = cacheKey ids2
  /\ fetchTokenPrices ids2 (answering 6000 ∅)
       (state_after (fetchTokenPrices ids1 (answering 5000 twoEntries) initial))
     = {| result := Returned twoEntries;
          state_after := state_after (fetchTokenPrices ids1 (answering 5000 twoEntries) initial);
          events := [] |}.
Proof.
  split; [apply perm_swap |].
  split; [discriminate |].
  split; [reflexivity |].
  now apply fetch_hit.
Qed.

(** C6, amended.  When no id contains a comma, two requests listing the
    same ids in different orders have different cache keys; whatever the
    first request does, the second reads the cache as if the first had not
    happened; and from an empty cache two answered requests leave two
    entries. *)
Theorem cacheKey_order_sensitive (ids1 ids2 : list string) :
  Forall (fun id => commaFree id = true) ids1 ->
  Permutation ids1 ids2 ->
  ids1 <> ids2 ->
  cacheKey ids1 <> cacheKey ids2
  /\ (forall s e1 t,
      cached ids2 t (state_after (fetchTokenPrices ids1 e1 s)) = cached ids2 t s)
  /\ (forall e1 e2 d1 d2,
      reply e1 = Response d1 -> reply e2 = Response d2 ->
      size (getCacheStats
              (state_after (fetchTokenPrices ids2 e2
                 (state_after (fetchTokenPrices ids1 e1 initial)))))
      = 2%nat).
Proof.
  intros Hfree Hperm Hne.
  assert (Hkey : cacheKey ids1 <> cacheKey ids2).
  { intros Hk. apply Hne. apply cacheKey_injective; auto.
    - eapply Permutation_Forall; eauto.
    - now apply Permutation_length. }
  split; [exact Hkey |].
  assert (Hsame : forall s e1 t,
            cached ids2 t (state_after (fetchTokenPrices ids1 e1 s)) = cached ids2 t s).
  { intros s e1 t. unfold cached. now rewrite lookup_after_fetch_other. }
  split; [exact Hsame |].
  intros e1 e2 d1 d2 Hr1 Hr2.
  destruct (fetch_miss ids1 e1 initial eq_refl) as (t1 & ev1 & _ & Hres1).
  rewrite Hr1 in Hres1. destruct Hres1 as [_ Hc1].
  set (s1 := state_after (fetchTokenPrices ids1 e1 initial)) in *.
  assert (Hmiss2 : cached ids2 (now e2) s1 = None).
  { unfold s1. now rewrite Hsame. }
  destruct (fetch_miss ids2 e2 s1 Hmiss2) as (t2 & ev2 & _ & Hres2).
  rewrite Hr2 in Hres2. destruct Hres2 as [_ Hc2].
  unfold getCacheStats. simpl. rewrite Hc2, Hc1.
  rewrite map_size_insert_None.
  - rewrite map_size_insert_None; [| apply lookup_empty].
    reflexivity.
  - rewrite lookup_insert_ne by exact Hkey. apply lookup_empty.
Qed.

Lemma cacheKey_order_sensitive_witness :
  cacheKey ["ethereum"; "uniswap"] <> cacheKey ["uniswap"; "ethereum"].
Proof.
  apply (cacheKey_order_sensitive ["ethereum"; "uniswap"] ["uniswap"; "ethereum"]).
  - repeat constructor.
  - apply perm_swap.
  - discriminate.
Defined.

End CacheKeys.

(** ** The rate-limit wait *)

Section RateLimiter.
Import Api.

Lemma fire_none (t : Z) (pending : list Z) (s : State) :
  Forall (fun w => t < w) pending -> fire t pending s = (pending, s).
Proof.
  induction 1 as [| w rest Hw _ IH]; simpl; [reflexivity |].
  apply Z.leb_gt in Hw. now rewrite Hw, IH.
Qed.

(** Callers that arrive together while the interval since the last
    recorded request is still running all go to sleep until that interval
    ends: a sleeping caller records nothing before it wakes. *)
Lemma resolveTimes_sleeping (n : nat) (t : Z) (pending : list Z) (s : State) :
  t - lastRequestTime s < MIN_REQUEST_INTERVAL ->
  Forall (fun w => t < w) pending ->
  resolveTimes (repeat t n) pending s
  = repeat (lastRequestTime s + MIN_REQUEST_INTERVAL) n.
Proof.
  intros Hbusy. revert pending.
  induction n as [| n IH]; intros pending Hpending; simpl; [reflexivity |].
  rewrite (fire_none _ _ _ Hpending). unfold rateLimit.
  destruct (Z.ltb_spec (t - lastRequestTime s) MIN_REQUEST_INTERVAL); [| lia].
  f_equal; [lia |].
  apply IH. apply Forall_app. split; [exact Hpending |].
  repeat constructor. lia.
Qed.

(** Of the callers that enter the wait at the same instant, the first
    proceeds at once when the interval is over, and all the others proceed
    together at the end of the running interval, whatever their number. *)
Lemma simultaneous_callers_resolve_together (n : nat) (t : Z) (s : State) :
  resolveTimes (repeat t (S n)) [] s
  = if t - lastRequestTime s <? MIN_REQUEST_INTERVAL
    then repeat (lastRequestTime s + MIN_REQUEST_INTERVAL) (S n)
    else t :: repeat (t + MIN_REQUEST_INTERVAL) n.
Proof.
  destruct (Z.ltb_spec (t - lastRequestTime s) MIN_REQUEST_INTERVAL) as [Hbusy | Hfree].
  - now apply resolveTimes_sleeping.
  - simpl. unfold rateLimit. apply Z.ltb_ge in Hfree. rewrite Hfree.
    f_equal. apply (resolveTimes_sleeping n t []
                      {| cache := cache s; lastRequestTime := t |}); [| constructor].
    simpl. unfold MIN_REQUEST_INTERVAL. lia.
Qed.

(** C4 does not hold of the code.  Three callers enter the wait at instant
    5000 of a fresh module: the first proceeds at 5000, the second and the
    third both at 6000, so the third resolves 1000 ms after the first, not
    the 2000 ms that one caller per interval would take.  When they enter
    at instant 500, while the first interval is still running, the three
    of them proceed together at 1000. *)
Theorem three_concurrent_callers_are_not_spaced :
  resolveTimes [5000; 5000; 5000] [] initial = [5000; 6000; 6000]
  /\ 6000 - 5000 < (3 - 1) * MIN_REQUEST_INTERVAL
  /\ resolveTimes [500; 500; 500] [] initial = [1000; 1000; 1000].
Proof.
  split; [| split; [unfold MIN_REQUEST_INTERVAL; lia |]].
  - apply (simultaneous_callers_resolve_together 2 5000 initial).
  - apply (simultaneous_callers_resolve_together 2 500 initial).
Qed.

End RateLimiter.

(** ** The chain readers ([web3.ts]) *)

Section ChainReaders.
Import Web3.
Context {rt : Runtime}.

Lemma value_of_bind {A B} (m : M A) (k : A -> M B) :
  value_of (bind m k)
  = match value_of m with
    | Returned a => value_of (k a)
    | Thrown e => Thrown e
    end.
Proof.
  destruct m as [l [a | e]]; simpl; [| reflexivity].
  unfold value_of. simpl. now destruct (k a).
Qed.

Lemma value_of_try_catch {A} (m : M A) (h : string -> M A) :
  value_of (try_catch m h)
  = match value_of m with
    | Returned a => Returned a
    | Thrown e => value_of (h e)
    end.
Proof.
  destruct m as [l [a | e]]; simpl; [reflexivity |].
  unfold value_of. simpl. now destruct (h e).
Qed.

Lemma value_of_call {A} (c : Call) (r : outcome A) : value_of (call c r) = r.
Proof. reflexivity. Qed.

Lemma value_of_lift {A} (r : outcome A) : value_of (lift r) = r.
Proof. reflexivity. Qed.

(** A loop whose body never throws and only appends runs to its end and
    appends what each element contributes. *)
Lemma forEach_collect {A B} (body : A -> list B -> M (list B))
    (item : A -> list B) (xs : list A) :
  (forall x acc, value_of (body x acc) = Returned (acc ++ item x)) ->
  forall acc, value_of (forEach xs body acc) = Returned (acc ++ flat_map item xs).
Proof.
  intros Hbody. induction xs as [| x xs IH]; intros acc; simpl.
  - now rewrite app_nil_r.
  - rewrite value_of_bind, Hbody, IH. now rewrite <- app_assoc.
Qed.

Lemma uniswapStep_value (ch : Chain) (w : string) (i : Z) (acc : list DefiPosition) :
  value_of (uniswapStep ch w i acc) = Returned (acc ++ uniswapItem ch w i).
Proof. unfold uniswapStep, uniswapItem. run_body. Qed.

Lemma aaveStep_value (ch : Chain) (w : string) (asset : string * string)
    (acc : list DefiPosition) :
  value_of (aaveStep ch w asset acc) = Returned (acc ++ aaveItem ch w asset).
Proof. unfold aaveStep, aaveItem. run_body. Qed.

Lemma compoundStep_value (ch : Chain) (w : string) (cToken : CToken)
    (acc : list DefiPosition) :
  value_of (compoundStep ch w cToken acc) = Returned (acc ++ compoundItem ch w cToken).
Proof. unfold compoundStep, compoundItem. run_body. Qed.

(** [getUniswapPositions] as a function of what the chain answers. *)
Lemma getUniswapPositions_value (ch : Chain) (w : string) :
  value_of (getUniswapPositions (Some ch) w)
  = Returned
      match npm_balanceOf ch w with
      | Returned b =>
          if 0 <? b then
            match toNumber b with
            | Returned n => flat_map (uniswapItem ch w) (uniswapIndices n)
            | Thrown _ => [uniswapExample]
            end
          else []
      | Thrown _ => [uniswapExample]
      end.
Proof.
  unfold getUniswapPositions.
  rewrite !value_of_try_catch, value_of_bind, value_of_call.
  destruct (npm_balanceOf ch w) as [b | e]; cbv beta iota; [| reflexivity].
  destruct (0 <? b); cbv beta iota; [| reflexivity].
  rewrite value_of_bind, value_of_lift.
  destruct (toNumber b) as [n | e]; cbv beta iota; [| reflexivity].
  now rewrite (forEach_collect _ _ _ (uniswapStep_value ch w)).
Qed.

Lemma getAavePositions_value (ch : Chain) (w : string) :
  value_of (getAavePositions (Some ch) w)
  = Returned (flat_map (aaveItem ch w) aaveAssets).
Proof.
  unfold getAavePositions. rewrite !value_of_try_catch.
  now rewrite (forEach_collect _ _ _ (aaveStep_value ch w)).
Qed.

Lemma getCompoundPositions_value (ch : Chain) (w : string) :
  value_of (getCompoundPositions (Some ch) w)
  = Returned
      match flat_map (compoundItem ch w) compoundTokens with
      | [] => [compoundExample]
      | positions => positions
      end.
Proof.
  unfold getCompoundPositions. rewrite value_of_try_catch, value_of_bind.
  rewrite (forEach_collect _ _ _ (compoundStep_value ch w)). simpl.
  now destruct (compoundItem ch w _ ++ _).
Qed.

Lemma uniswapItem_length (ch : Chain) (w : string) (i : Z) :
  (length (uniswapItem ch w i) <= 1)%nat.
Proof.
  unfold uniswapItem.
  destruct (npm_tokenOfOwnerByIndex ch w i) as [tokenId |]; simpl; [| lia].
  destruct (npm_positions ch tokenId); simpl; lia.
Qed.

Lemma flat_map_uniswapItem_length (ch : Chain) (w : string) (xs : list Z) :
  (length (flat_map (uniswapItem ch w) xs) <= length xs)%nat.
Proof.
  induction xs as [| i xs IH]; simpl; [lia |].
  rewrite length_app. pose proof (uniswapItem_length ch w i). lia.
Qed.

Lemma uniswapIndices_length (n : Z) :
  length (uniswapIndices n) = Z.to_nat (Z.min n 10).
Proof. unfold uniswapIndices. now rewrite length_map, length_seq. Qed.

(** The yields the readers compute are neither [NaN] nor [-0]. *)
Lemma uniswapItem_ordinary (ch : Chain) (w : string) (i : Z) :
  Forall (fun pos => ordinaryYield pos = true) (uniswapItem ch w i).
Proof.
  unfold uniswapItem.
  destruct (npm_tokenOfOwnerByIndex ch w i) as [tokenId |]; [| constructor].
  destruct (npm_positions ch tokenId); repeat constructor.
Qed.

Lemma aaveItem_ordinary (ch : Chain) (w : string) (asset : string * string) :
  Forall (fun pos => ordinaryYield pos = true) (aaveItem ch w asset).
Proof.
  unfold aaveItem.
  destruct (aave_getUserReserveData ch (fst asset) w) as [b |]; [| constructor].
  destruct (0 <? b); [| constructor].
  destruct (formatUnits b 18) as [text |]; [| constructor].
  destruct (Js.gt (parseFloat text) 0.001) eqn:Hgt; repeat constructor.
  unfold ordinaryYield. simpl.
  eapply scaled_amount_ordinary; [reflexivity | exact Hgt].
Qed.

Lemma compoundItem_ordinary (ch : Chain) (w : string) (cToken : CToken) :
  Forall (fun pos => ordinaryYield pos = true) (compoundItem ch w cToken).
Proof.
  unfold compoundItem.
  destruct (cToken_balanceOf ch (ct_address cToken) w) as [b |]; [| constructor].
  destruct (cToken_exchangeRateStored ch (ct_address cToken)) as [rate |];
    [| constructor].
  destruct (0 <? b); [| constructor].
  destruct (formatEther _) as [text |]; [| constructor].
  destruct (Js.gt (parseFloat text) 0.001) eqn:Hgt; repeat constructor.
  unfold ordinaryYield. simpl.
  eapply scaled_amount_ordinary; [reflexivity | exact Hgt].
Qed.

Lemma flat_map_ordinary {A} (item : A -> list DefiPosition) (xs : list A) :
  (forall x, Forall (fun pos => ordinaryYield pos = true) (item x)) ->
  Forall (fun pos => ordinaryYield pos = true) (flat_map item xs).
Proof.
  intros Hitem. apply Forall_flat_map, Forall_forall. intros x _. apply Hitem.
Qed.

Lemma reader_yields_ordinary (provider : option Chain) (w : string)
    (positions : list DefiPosition) :
  value_of (getUniswapPositions provider w) = Returned positions
  \/ value_of (getAavePositions provider w) = Returned positions
  \/ value_of (getCompoundPositions provider w) = Returned positions ->
  Forall (fun pos => ordinaryYield pos = true) positions.
Proof.
  destruct provider as [ch |].
  - rewrite getUniswapPositions_value, getAavePositions_value,
      getCompoundPositions_value.
    intros [Hu | [Ha | Hc]];
      [apply Returned_inj in Hu | apply Returned_inj in Ha | apply Returned_inj in Hc];
      subst positions.
    + destruct (npm_balanceOf ch w) as [b |]; [| repeat constructor].
      destruct (0 <? b); [| constructor].
      destruct (toNumber b) as [n |]; [| repeat constructor].
      exact (flat_map_ordinary _ (uniswapIndices n) (uniswapItem_ordinary ch w)).
    + exact (flat_map_ordinary _ aaveAssets (aaveItem_ordinary ch w)).
    + pose proof (flat_map_ordinary (compoundItem ch w) compoundTokens
                    (compoundItem_ordinary ch w)) as Hc.
      destruct (flat_map (compoundItem ch w) compoundTokens);
        [repeat constructor | exact Hc].
  - intros [[= <-] | [[= <-] | [= <-]]]; constructor.
Qed.

End ChainReaders.

Section ReaderPolicies.
Import Web3.
Context {rt : Runtime}.

(** C7. With a provider or without, a token address or a wallet address
    that [isAddress] rejects makes [getTokenBalance] return
    [{balance: "0", symbol: "", decimals: 18}]: it does not throw and the
    log of chain queries is empty. *)
Theorem getTokenBalance_malformed (provider : option Chain)
    (tokenAddress walletAddress : string) :
  isAddress tokenAddress = false \/ isAddress walletAddress = false ->
  getTokenBalance provider tokenAddress walletAddress
  = ([], Returned {| balance := "0"; symbol := ""; decimals := 18 |}).
Proof.
  intros Hbad. unfold getTokenBalance.
  destruct provider as [ch |]; [| reflexivity].
  destruct Hbad as [Ht | Hw].
  - now rewrite Ht.
  - rewrite Hw. now destruct (isAddress tokenAddress).
Qed.

(** C9. [getUniswapPositions] always returns a list, of at most 10
    positions: nothing without a provider, the example alone when the
    count query fails or the count does not convert, nothing for a count
    of zero, and otherwise at most [min(count, 10)] copies of the literal
    pushed by the loop. *)
Theorem getUniswapPositions_at_most_10 (provider : option Chain)
    (walletAddress : string) :
  exists positions,
    value_of (getUniswapPositions provider walletAddress) = Returned positions
    /\ (length positions <= 10)%nat
    /\ (provider = None -> positions = [])
    /\ (forall ch, provider = Some ch ->
        match npm_balanceOf ch walletAddress with
        | Thrown _ => positions = [uniswapExample]
        | Returned b =>
            if 0 <? b then
              match toNumber b with
              | Thrown _ => positions = [uniswapExample]
              | Returned n =>
                  (length positions <= Z.to_nat (Z.min n 10))%nat
                  /\ Forall (eq uniswapExample) positions
              end
            else positions = []
        end).
Proof.
  destruct provider as [ch |].
  - eexists. split; [apply getUniswapPositions_value |].
    assert (Hloop : forall n,
              (length (flat_map (uniswapItem ch walletAddress) (uniswapIndices n))
               <= Z.to_nat (Z.min n 10))%nat).
    { intros n. rewrite <- uniswapIndices_length.
      apply flat_map_uniswapItem_length. }
    split; [| split; [discriminate |]].
    + destruct (npm_balanceOf ch walletAddress) as [b |]; simpl; [| lia].
      destruct (0 <? b); simpl; [| lia].
      destruct (toNumber b) as [n |]; simpl; [| lia].
      specialize (Hloop n). lia.
    + intros ch' [= <-].
      destruct (npm_balanceOf ch walletAddress) as [b |]; [| reflexivity].
      destruct (0 <? b); [| reflexivity].
      destruct (toNumber b) as [n |]; [| reflexivity].
      split; [apply Hloop |].
      apply Forall_flat_map, Forall_forall. intros i _. unfold uniswapItem.
      destruct (npm_tokenOfOwnerByIndex ch walletAddress i) as [tokenId |];
        [| constructor].
      destruct (npm_positions ch tokenId); repeat constructor.
  - exists []. repeat split; try reflexivity; simpl; try lia. discriminate.
Qed.

Lemma compoundItem_failed (ch : Chain) (w : string) (cToken : CToken) :
  compoundQueryFails ch w cToken = true -> compoundItem ch w cToken = [].
Proof.
  unfold compoundQueryFails, compoundItem.
  destruct (cToken_balanceOf ch (ct_address cToken) w),
           (cToken_exchangeRateStored ch (ct_address cToken));
    simpl; intros; try reflexivity; discriminate.
Qed.

(** C3, amended.  With a provider, no reader throws.  A failing query
    inside a loop is skipped: the reader returns what the other items
    contribute ([uniswapItem], [aaveItem], [compoundItem] are empty for a
    failing query).  [getUniswapPositions] returns its example alone when
    the count query fails or the count does not convert to a number;
    [getCompoundPositions] returns its example alone when no item
    contributes, in particular when every cToken query fails. *)
Theorem readers_failure_policy (ch : Chain) (walletAddress : string) :
  (exists u a c,
      value_of (getUniswapPositions (Some ch) walletAddress) = Returned u
      /\ value_of (getAavePositions (Some ch) walletAddress) = Returned a
      /\ value_of (getCompoundPositions (Some ch) walletAddress) = Returned c)
  /\ (is_returned (npm_balanceOf ch walletAddress) = false ->
      value_of (getUniswapPositions (Some ch) walletAddress)
      = Returned [uniswapExample])
  /\ (forall b, npm_balanceOf ch walletAddress = Returned b -> 0 < b ->
      is_returned (toNumber b) = false ->
      value_of (getUniswapPositions (Some ch) walletAddress)
      = Returned [uniswapExample])
  /\ (forall b n, npm_balanceOf ch walletAddress = Returned b -> 0 < b ->
      toNumber b = Returned n ->
      value_of (getUniswapPositions (Some ch) walletAddress)
      = Returned (flat_map (uniswapItem ch walletAddress) (uniswapIndices n)))
  /\ (Forall (fun cToken => compoundQueryFails ch walletAddress cToken = true)
             compoundTokens ->
      value_of (getCompoundPositions (Some ch) walletAddress)
      = Returned [compoundExample])
  /\ (flat_map (compoundItem ch walletAddress) compoundTokens = [] ->
      value_of (getCompoundPositions (Some ch) walletAddress)
      = Returned [compoundExample])
  /\ (flat_map (compoundItem ch walletAddress) compoundTokens <> [] ->
      value_of (getCompoundPositions (Some ch) walletAddress)
      = Returned (flat_map (compoundItem ch walletAddress) compoundTokens))
  /\ (Exists (fun asset =>
                is_returned (aave_getUserReserveData ch (fst asset) walletAddress)
                = true) aaveAssets ->
      value_of (getAavePositions (Some ch) walletAddress)
      = Returned (flat_map (aaveItem ch walletAddress) aaveAssets)).
Proof.
  rewrite getUniswapPositions_value, getAavePositions_value,
    getCompoundPositions_value.
  split; [do 3 eexists; repeat split; reflexivity |].
  split.
  { destruct (npm_balanceOf ch walletAddress); [discriminate | reflexivity]. }
  split.
  { intros b -> Hb Hn. apply Z.ltb_lt in Hb. rewrite Hb.
    destruct (toNumber b); [discriminate | reflexivity]. }
  split.
  { intros b n -> Hb ->. apply Z.ltb_lt in Hb. now rewrite Hb. }
  split.
  { intros Hall.
    assert (Hempty : flat_map (compoundItem ch walletAddress) compoundTokens = []).
    { induction Hall as [| cToken rest Hfail _ IH]; [reflexivity |].
      simpl. now rewrite (compoundItem_failed _ _ _ Hfail), IH. }
    now rewrite Hempty. }
  split; [now intros -> |].
  split; [| reflexivity].
  intros Hsome.
  now destruct (flat_map (compoundItem ch walletAddress) compoundTokens).
Qed.

End ReaderPolicies.

(** C3 as stated does not hold.  When the position count is answered and
    the detail query of the only position fails, [getUniswapPositions]
    returns the empty list, not its example; when one reserve is answered
    and the two others fail, [getAavePositions] returns the position of
    that reserve, not its example. *)
Lemma partial_failure_is_not_the_example :
  is_returned (Web3.npm_balanceOf countOnlyChain someWallet) = true
  /\ is_returned (Web3.npm_tokenOfOwnerByIndex countOnlyChain someWallet 0) = false
  /\ Web3.getUniswapPositions (rt := Reference.runtime) (Some countOnlyChain) someWallet
     = ([Web3.NpmBalanceOf someWallet; Web3.NpmTokenOfOwnerByIndex someWallet 0],
        Returned [])
  /\ Web3.value_of
       (Web3.getUniswapPositions (rt := Reference.runtime) (Some countOnlyChain) someWallet)
     <> Returned [Web3.uniswapExample]
  /\ Web3.value_of
       (Web3.getAavePositions (rt := Reference.runtime) (Some fundedChain) someWallet)
     = Returned
         [ {| protocol := "Aave"; type := "Supply"; token := "WETH";
              amount := "2.5 WETH"; value := 5000%float;
              apy := Some 3.2%float; yield := Some 160%float;
              poolAddress := None;
              contractAddress := Some "0xC02aaA39b223FE8D0A0e5C4F27eAD9083C756Cc2" |} ].
Proof.
  split; [reflexivity |]. split; [reflexivity |].
  split; [vm_compute; reflexivity |].
  split; [| vm_compute; reflexivity].
  vm_compute. discriminate.
Qed.

Lemma getTokenBalance_malformed_witness :
  Web3.getTokenBalance (rt := Reference.runtime) (Some fundedChain)
    "0x1f9840a85d5aF5bf1D1762F925BDADdC4201F984" "0x742d35Cc"
  = ([], Returned {| Web3.balance := "0"; Web3.symbol := ""; Web3.decimals := 18 |}).
Proof.
  apply (getTokenBalance_malformed (rt := Reference.runtime)).
  right. reflexivity.
Defined.

Lemma getUniswapPositions_at_most_10_witness :
  exists positions,
    Web3.value_of
      (Web3.getUniswapPositions (rt := Reference.runtime) (Some countOnlyChain) someWallet)
    = Returned positions
    /\ (length positions <= 10)%nat.
Proof.
  destruct (getUniswapPositions_at_most_10 (rt := Reference.runtime)
              (Some countOnlyChain) someWallet) as (positions & Hv & Hlen & _).
  exists positions. split; [exact Hv | exact Hlen].
Defined.

Lemma readers_failure_policy_witness :
  Web3.value_of
    (Web3.getCompoundPositions (rt := Reference.runtime) (Some deadChain) someWallet)
  = Returned [Web3.compoundExample]
  /\ Web3.value_of
       (Web3.getUniswapPositions (rt := Reference.runtime) (Some deadChain) someWallet)
     = Returned [Web3.uniswapExample].
Proof.
  pose proof (readers_failure_policy (rt := Reference.runtime) deadChain someWallet)
    as (_ & Hcount & _ & _ & Hcompound & _).
  split.
  - apply Hcompound. repeat constructor.
  - apply Hcount. reflexivity.
Defined.

(** ** The aggregation ([page.tsx]) *)

Section Aggregation.
Import Page.
Context {rt : Runtime}.
Variable src : Sources.

Lemma tokenStep_returns (prices : Api.TokenMarketData) (address : string)
    (token : string * string) (acc : list TokenBalance) :
  exists acc', tokenStep src prices address token acc = Returned acc'.
Proof.
  unfold tokenStep, otry.
  destruct (obind _ _); eauto.
Qed.

(** The token loop runs to its end: a throwing lookup is swallowed. *)
Lemma token_loop_returns (prices : Api.TokenMarketData) (address : string)
    (xs : list (string * string)) (acc : list TokenBalance) :
  exists tokenBalances,
    oforEach xs (tokenStep src prices address) acc = Returned tokenBalances.
Proof.
  revert acc. induction xs as [| token xs IH]; intros acc; simpl; [eauto |].
  destruct (tokenStep_returns prices address token acc) as [acc' ->]. simpl.
  apply IH.
Qed.

Lemma fetchRealData_try_merged (address : string) (snap : PortfolioData) :
  fetchRealData_try src address = Returned snap ->
  exists tokenBalances u a c,
    getUniswapPositions src address = Returned u
    /\ getAavePositions src address = Returned a
    /\ getCompoundPositions src address = Returned c
    /\ snap = merge tokenBalances u a c.
Proof.
  unfold fetchRealData_try, all3.
  destruct (fetchTokenPrices src tokenIds) as [prices |]; [| discriminate].
  destruct (getEthBalance src address) as [ethBalance |]; [| discriminate].
  cbn [obind].
  destruct (token_loop_returns prices address commonTokens
              (ethRow prices ethBalance)) as [tokenBalances ->].
  cbn [obind].
  destruct (getUniswapPositions src address) as [u |]; [| discriminate].
  destruct (getAavePositions src address) as [a |]; [| discriminate].
  destruct (getCompoundPositions src address) as [c |]; [| discriminate].
  simpl. intros [= <-]. exists tokenBalances, u, a, c. auto.
Qed.

(** The totals of a merged snapshot are the sums of its parts; [||]
    leaves every yield untouched except [NaN] and [-0]. *)
Lemma merge_totals (tokenBalances : list TokenBalance)
    (u a c : list DefiPosition) :
  let snap := merge tokenBalances u a c in
  totalValue snap
  = (Js.sum_by Token.value (tokens snap) + Js.sum_by value (defiPositions snap))%float
  /\ totalYield snap = Api.calculateTotalYield (defiPositions snap)
  /\ (Forall (fun pos => ordinaryYield pos = true) (u ++ a ++ c) ->
      totalYield snap = Js.sum_by yieldOrZero (defiPositions snap)).
Proof.
  split; [reflexivity |]. split; [reflexivity |].
  intros Hord. simpl. apply sum_by_ext.
  eapply Forall_impl; [exact Hord |]. intros pos. apply or_default_ordinary.
Qed.

(** C8. [fetchRealData] has two outcomes only.  When the price call, the
    native balance and the three readers all return, the token loop runs
    to its end and the result is the merge of everything, announced as a
    success.  When any of them throws, the failure is announced and the
    result is the static snapshot of [fetchMockData]: no snapshot built
    from a part of the sources is ever returned. *)
Theorem fetchRealData_all_or_nothing (address : string) :
  (forall prices ethBalance u a c,
      fetchTokenPrices src tokenIds = Returned prices ->
      getEthBalance src address = Returned ethBalance ->
      getUniswapPositions src address = Returned u ->
      getAavePositions src address = Returned a ->
      getCompoundPositions src address = Returned c ->
      exists tokenBalances,
        oforEach commonTokens (tokenStep src prices address)
                 (ethRow prices ethBalance) = Returned tokenBalances
        /\ fetchRealData src address
           = successfulLoad (merge tokenBalances u a c))
  /\ (is_returned (fetchTokenPrices src tokenIds)
      && is_returned (getEthBalance src address)
      && is_returned (getUniswapPositions src address)
      && is_returned (getAavePositions src address)
      && is_returned (getCompoundPositions src address) = false ->
      fetchRealData src address = failedLoad)
  /\ (fetchRealData src address = failedLoad
      \/ exists tokenBalances u a c,
           fetchRealData src address = successfulLoad (merge tokenBalances u a c)).
Proof.
  split; [| split].
  - intros prices ethBalance u a c Hp He Hu Ha Hc.
    destruct (token_loop_returns prices address commonTokens
                (ethRow prices ethBalance)) as [tokenBalances Hloop].
    exists tokenBalances. split; [exact Hloop |].
    unfold fetchRealData, fetchRealData_try, all3.
    rewrite Hp, He. cbn [obind]. rewrite Hloop, Hu, Ha, Hc. reflexivity.
  - unfold fetchRealData, fetchRealData_try, all3.
    destruct (fetchTokenPrices src tokenIds) as [prices |]; [| reflexivity].
    destruct (getEthBalance src address) as [ethBalance |]; [| reflexivity].
    cbn [obind].
    destruct (token_loop_returns prices address commonTokens
                (ethRow prices ethBalance)) as [tokenBalances ->].
    cbn [obind].
    destruct (getUniswapPositions src address) as [u |]; [| reflexivity].
    destruct (getAavePositions src address) as [a |]; [| reflexivity].
    destruct (getCompoundPositions src address) as [c |]; [| reflexivity].
    discriminate.
  - unfold fetchRealData.
    destruct (fetchRealData_try src address) as [snap |] eqn:Hrun; [| now left].
    right. destruct (fetchRealData_try_merged address snap Hrun)
      as (tokenBalances & u & a & c & _ & _ & _ & ->).
    now exists tokenBalances, u, a, c.
Qed.

End Aggregation.

Section LiveAggregation.
Import Page.
Context {rt : Runtime}.

(** C1. In every snapshot the merge step of [fetchRealData] produces,
    whatever the provider, the chain, the clock and the price endpoint do,
    [totalValue] is the sum of [value] over the snapshot's token rows plus
    the sum of [value] over its merged positions, and [totalYield] is the
    sum of [yield] over the merged positions, an absent yield counting for
    0; it is also what [calculateTotalYield] computes on these positions.
    Numbers are binary64 and the sums are taken left to right from 0, as
    [reduce] does: the equalities are exact. *)
Theorem snapshot_totals (provider : option Web3.Chain) (e : Api.Env)
    (s : Api.State) (address : string) (snap : PortfolioData) :
  fetchRealData_try (liveSources provider e s) address = Returned snap ->
  totalValue snap
  = (Js.sum_by Token.value (tokens snap) + Js.sum_by value (defiPositions snap))%float
  /\ totalYield snap = Js.sum_by yieldOrZero (defiPositions snap)
  /\ totalYield snap = Api.calculateTotalYield (defiPositions snap).
Proof.
  intros Hrun.
  destruct (fetchRealData_try_merged _ address snap Hrun)
    as (tokenBalances & u & a & c & Hu & Ha & Hc & ->).
  destruct (merge_totals tokenBalances u a c) as (Hvalue & Hcalc & Hyield).
  split; [exact Hvalue |]. split; [| exact Hcalc].
  apply Hyield. repeat (apply Forall_app; split).
  - apply (reader_yields_ordinary provider address). left. exact Hu.
  - apply (reader_yields_ordinary provider address). right. left. exact Ha.
  - apply (reader_yields_ordinary provider address). right. right. exact Hc.
Qed.

End LiveAggregation.

Lemma demo_run :
  Page.fetchRealData_try (rt := Reference.runtime) demoSources someWallet
  = Returned demoSnapshot.
Proof. vm_compute. reflexivity. Qed.

Lemma snapshot_totals_witness :
  Page.totalValue demoSnapshot = 20040%float
  /\ Page.totalYield demoSnapshot
     = Js.sum_by yieldOrZero (Page.defiPositions demoSnapshot).
Proof.
  destruct (snapshot_totals (rt := Reference.runtime) (Some fundedChain)
              (unreachable 5000) Api.initial someWallet demoSnapshot demo_run)
    as (Hvalue & Hyield & _).
  split; [rewrite Hvalue; vm_compute; reflexivity | exact Hyield].
Defined.

Lemma fetchRealData_all_or_nothing_witness :
  Page.fetchRealData (rt := Reference.runtime) pricesRaise someWallet = failedLoad.
Proof.
  apply (fetchRealData_all_or_nothing (rt := Reference.runtime) pricesRaise someWallet).
  reflexivity.
Defined.

(** ** Runs of the model *)

(** A token without [decimals()] and [symbol()] still yields a row. *)
Example getTokenBalance_defaults :
  Web3.getTokenBalance (rt := Reference.runtime) (Some bareTokenChain)
    "0x1f9840a85d5aF5bf1D1762F925BDADdC4201F984" someWallet
  = ([ Web3.Erc20BalanceOf "0x1f9840a85d5aF5bf1D1762F925BDADdC4201F984" someWallet;
       Web3.Erc20Decimals "0x1f9840a85d5aF5bf1D1762F925BDADdC4201F984";
       Web3.Erc20Symbol "0x1f9840a85d5aF5bf1D1762F925BDADdC4201F984" ],
     Returned {| Web3.balance := "2.5"; Web3.symbol := "UNKNOWN";
                 Web3.decimals := 18 |}).
Proof. vm_compute. reflexivity. Qed.

(** The readers send no query without a provider. *)
Example no_provider_no_query :
  Web3.calls (Web3.getUniswapPositions (rt := Reference.runtime) None someWallet) = []
  /\ Web3.getAavePositions (rt := Reference.runtime) None someWallet = ([], Returned [])
  /\ Web3.getEthBalance (rt := Reference.runtime) None someWallet = ([], Returned "0").
Proof. repeat split. Qed.

(** Token rows are priced by lower-cased symbol: ["dai"] is a key of the
    price table, ["uni"] is not. *)
Example prices_by_symbol :
  Api.usdOr Api.fallbackPrices (Js.toLowerCase "DAI") 0 = 1%float
  /\ Api.usdOr Api.fallbackPrices (Js.toLowerCase "UNI") 0 = 0%float
  /\ Api.usdOr Api.fallbackPrices "ethereum" 3200 = 3200%float.
Proof. vm_compute. repeat split. Qed.

(** A hit within the five minutes, a miss after them. *)
Example cached_then_expired :
  let s := Api.state_after
             (Api.fetchTokenPrices ["ethereum"] (answering 5000 Api.fallbackPrices)
                Api.initial) in
  Api.cached ["ethereum"] 305249 s = Some Api.fallbackPrices
  /\ Api.cached ["ethereum"] 305250 s = None
  /\ Api.size (Api.getCacheStats s) = 1%nat.
Proof. vm_compute. repeat split. Qed.

(** Callers that do not overlap are spaced by the interval. *)
Example spaced_callers :
  Api.resolveTimes [5000; 5200; 6100] [] Api.initial = [5000; 6000; 7000].
Proof. reflexivity. Qed.

(** * Further properties *)

(** ** The rate limiter in sequential use *)

Section Limiter.
Import Api.

Lemma rateLimit_request_time (t0 lag : Z) (s : State) :
  0 <= lag ->
  match rateLimit t0 s with
  | (Sleeping ms, _) =>
      lastRequestTime s + MIN_REQUEST_INTERVAL <= t0 + ms + lag
      /\ t0 <= t0 + ms + lag
  | (_, s1) =>
      lastRequestTime s + MIN_REQUEST_INTERVAL <= t0 /\ lastRequestTime s1 = t0
  end.
Proof.
  intros Hlag. unfold rateLimit.
  destruct (Z.ltb_spec (t0 - lastRequestTime s) MIN_REQUEST_INTERVAL); simpl; lia.
Qed.

Lemma price_request_aux (tokenIds : list string) (e : Env) (s : State) :
  cached tokenIds (now e) s = None ->
  0 <= timer_lag e ->
  exists t,
    requestTime (events (fetchTokenPrices tokenIds e s)) = Some t
    /\ lastRequestTime s + MIN_REQUEST_INTERVAL <= t
    /\ now e <= t
    /\ lastRequestTime (state_after (fetchTokenPrices tokenIds e s)) = t.
Proof.
  intros Hmiss Hlag.
  pose proof (rateLimit_request_time (now e) (timer_lag e) s Hlag) as Hr.
  unfold fetchTokenPrices, fetchTokenPrices_try, enter. rewrite Hmiss.
  destruct (rateLimit (now e) s) as [[d | ms |] s1] eqn:Hrl.
  - unfold rateLimit in Hrl. destruct (_ <? _); discriminate.
  - exists (now e + ms + timer_lag e). destruct (reply e); simpl; intuition lia.
  - exists (now e). destruct Hr as [Hr1 Hr2].
    destruct (reply e); simpl; intuition lia.
Qed.

Lemma market_request_aux (tokenIds : list string) (e : Market.Env) (s : State) :
  0 <= Market.timer_lag e ->
  cache (Market.state_after (Market.fetchTokenData tokenIds e s)) = cache s
  /\ Market.result (Market.fetchTokenData tokenIds e s) = Market.settle (Market.reply e)
  /\ exists t,
       requestTime (Market.events (Market.fetchTokenData tokenIds e s)) = Some t
       /\ lastRequestTime s + MIN_REQUEST_INTERVAL <= t
       /\ Market.now e <= t
       /\ lastRequestTime (Market.state_after (Market.fetchTokenData tokenIds e s)) = t.
Proof.
  intros Hlag.
  pose proof (rateLimit_request_time (Market.now e) (Market.timer_lag e) s Hlag) as Hr.
  unfold Market.fetchTokenData.
  assert (Hcache : forall en s1,
             rateLimit (Market.now e) s = (en, s1) -> cache s1 = cache s).
  { unfold rateLimit. intros en s1. destruct (_ <? _); intros [= <- <-]; reflexivity. }
  destruct (rateLimit (Market.now e) s) as [[d | ms |] s1] eqn:Hrl;
    specialize (Hcache _ _ eq_refl); simpl;
    (split; [exact Hcache |]); (split; [reflexivity |]).
  - unfold rateLimit in Hrl. destruct (_ <? _); discriminate.
  - exists (Market.now e + ms + Market.timer_lag e). intuition lia.
  - exists (Market.now e). intuition lia.
Qed.

(** X1. A call of [fetchTokenPrices] that misses the cache issues its
    request no earlier than [MIN_REQUEST_INTERVAL] after the last recorded
    request and no earlier than its own entry, and records the instant of
    its request as the last one (timers do not fire early). *)
Theorem price_request_waits_for_interval (tokenIds : list string) (e : Env)
    (s : State) :
  cached tokenIds (now e) s = None ->
  0 <= timer_lag e ->
  exists t,
    requestTime (events (fetchTokenPrices tokenIds e s)) = Some t
    /\ lastRequestTime s + MIN_REQUEST_INTERVAL <= t
    /\ now e <= t
    /\ lastRequestTime (state_after (fetchTokenPrices tokenIds e s)) = t.
Proof. apply price_request_aux. Qed.

Lemma price_request_waits_for_interval_witness :
  exists t,
    requestTime (events (fetchTokenPrices ["ethereum"] (unreachable 400) initial)) = Some t
    /\ 1000 <= t.
Proof.
  destruct (price_request_waits_for_interval ["ethereum"] (unreachable 400) initial
              eq_refl ltac:(simpl; lia)) as (t & Ht & Hspaced & _).
  exists t. split; [exact Ht | exact Hspaced].
Defined.

(** X2. [fetchTokenData] consults no cache and writes none: it always
    issues one request, after the same wait as [fetchTokenPrices], and
    unlike it throws the rejection of the request to its caller instead of
    falling back. *)
Theorem fetchTokenData_rethrows (tokenIds : list string) (e : Market.Env)
    (s : State) :
  0 <= Market.timer_lag e ->
  cache (Market.state_after (Market.fetchTokenData tokenIds e s)) = cache s
  /\ (forall msg, Market.reply e = Market.Rejected msg <->
        Market.result (Market.fetchTokenData tokenIds e s) = Thrown msg)
  /\ (forall d, Market.reply e = Market.Response d <->
        Market.result (Market.fetchTokenData tokenIds e s) = Returned d)
  /\ exists t,
       requestTime (Market.events (Market.fetchTokenData tokenIds e s)) = Some t
       /\ lastRequestTime s + MIN_REQUEST_INTERVAL <= t
       /\ Market.now e <= t
       /\ lastRequestTime (Market.state_after (Market.fetchTokenData tokenIds e s)) = t.
Proof.
  intros Hlag.
  destruct (market_request_aux tokenIds e s Hlag) as (Hcache & Hres & Ht).
  split; [exact Hcache |]. rewrite Hres.
  split; [| split; [| exact Ht]].
  - intros msg. destruct (Market.reply e); simpl; split; congruence.
  - intros d. destruct (Market.reply e); simpl; split; congruence.
Qed.

Lemma fetchTokenData_rethrows_witness :
  Market.result (Market.fetchTokenData ["ethereum"] (marketDown 5000) initial)
  = Thrown "Request failed with status code 429".
Proof.
  apply (proj1 (proj2 (fetchTokenData_rethrows ["ethereum"] (marketDown 5000) initial
                         ltac:(simpl; lia)))).
  reflexivity.
Defined.

(** X3. The two functions share one limiter: when a price request that
    misses the cache follows a market-data request, or a market-data
    request follows a price request that missed, the second request is
    issued at least [MIN_REQUEST_INTERVAL] after the first. *)
Theorem limiter_is_shared (ids1 ids2 : list string) (e1 : Market.Env) (e2 : Env)
    (s : State) (t1 t2 : Z) :
  0 <= Market.timer_lag e1 -> 0 <= timer_lag e2 ->
  (let s1 := Market.state_after (Market.fetchTokenData ids1 e1 s) in
   cached ids2 (now e2) s1 = None ->
   requestTime (Market.events (Market.fetchTokenData ids1 e1 s)) = Some t1 ->
   requestTime (events (fetchTokenPrices ids2 e2 s1)) = Some t2 ->
   t1 + MIN_REQUEST_INTERVAL <= t2)
  /\ (let s2 := state_after (fetchTokenPrices ids2 e2 s) in
      cached ids2 (now e2) s = None ->
      requestTime (events (fetchTokenPrices ids2 e2 s)) = Some t2 ->
      requestTime (Market.events (Market.fetchTokenData ids1 e1 s2)) = Some t1 ->
      t2 + MIN_REQUEST_INTERVAL <= t1).
Proof.
  intros Hlag1 Hlag2. split.
  - intros s1 Hmiss Ht1 Ht2.
    destruct (market_request_aux ids1 e1 s Hlag1) as (_ & _ & t & Ht & _ & _ & Hlast).
    destruct (price_request_aux ids2 e2 s1 Hmiss Hlag2) as (t' & Ht' & Hsp & _).
    fold s1 in Hlast. rewrite Ht in Ht1. rewrite Ht' in Ht2.
    injection Ht1 as <-. injection Ht2 as <-. lia.
  - intros s2 Hmiss Ht2 Ht1.
    destruct (price_request_aux ids2 e2 s Hmiss Hlag2) as (t' & Ht' & _ & _ & Hlast).
    destruct (market_request_aux ids1 e1 s2 Hlag1) as (_ & _ & t & Ht & Hsp & _).
    fold s2 in Hlast. rewrite Ht in Ht1. rewrite Ht' in Ht2.
    injection Ht1 as <-. injection Ht2 as <-. lia.
Qed.

End Limiter.

Lemma limiter_is_shared_witness : 5000 + Api.MIN_REQUEST_INTERVAL <= 6000.
Proof.
  apply (proj1 (limiter_is_shared ["bitcoin"] ["ethereum"] (marketDown 5000)
                  (unreachable 5200) Api.initial 5000 6000
                  ltac:(simpl; lia) ltac:(simpl; lia)));
    reflexivity.
Defined.

(** ** The cache over any call *)

Section CacheGrowth.
Import Api.

(** What a call does to the cache map: nothing, or one insertion under the
    key of its own ids. *)
Lemma fetch_cache_effect (tokenIds : list string) (e : Env) (s : State) :
  cache (state_after (fetchTokenPrices tokenIds e s)) = cache s
  \/ exists entry,
       cache (state_after (fetchTokenPrices tokenIds e s))
       = <[cacheKey tokenIds := entry]> (cache s).
Proof.
  destruct (cached tokenIds (now e) s) as [d |] eqn:Hc.
  - left. now rewrite (fetch_hit _ _ _ _ Hc).
  - destruct (fetch_miss tokenIds e s Hc) as (t & ev & _ & Hres).
    destruct (reply e); destruct Hres as [_ ->]; eauto.
Qed.

(** X4. No call of [fetchTokenPrices] removes a cache entry or touches
    the entry of another key: the cache grows by at most one entry per
    call, the one under the key of the call, and keeps its size when that
    key is already present (also when its entry has expired). *)
Theorem fetchTokenPrices_cache_growth (tokenIds : list string) (e : Env) (s : State) :
  let s' := state_after (fetchTokenPrices tokenIds e s) in
  (forall k, is_Some (cache s !! k) -> is_Some (cache s' !! k))
  /\ (forall k, k <> cacheKey tokenIds -> cache s' !! k = cache s !! k)
  /\ (size (getCacheStats s) <= size (getCacheStats s'))%nat
  /\ (size (getCacheStats s') <= S (size (getCacheStats s)))%nat
  /\ (is_Some (cache s !! cacheKey tokenIds) ->
      size (getCacheStats s') = size (getCacheStats s)).
Proof.
  intros s'. unfold getCacheStats. simpl.
  destruct (fetch_cache_effect tokenIds e s) as [Hsame | [entry Hins]];
    fold s' in Hsame || fold s' in Hins.
  - rewrite Hsame. repeat split; auto.
  - rewrite Hins. split; [| split; [| split; [| split]]].
    + intros k Hk. destruct (decide (cacheKey tokenIds = k)) as [<- | Hne].
      * rewrite lookup_insert_eq. eauto.
      * now rewrite lookup_insert_ne.
    + intros k Hne. now rewrite lookup_insert_ne.
    + rewrite map_size_insert. destruct (cache s !! cacheKey tokenIds); simpl; lia.
    + rewrite map_size_insert. destruct (cache s !! cacheKey tokenIds); simpl; lia.
    + intros Hsome. now apply map_size_insert_Some.
Qed.

(** X5. [clearCache] empties the cache and nothing else: the statistics
    show no entry, every later call of [fetchTokenPrices] issues a request
    whatever its ids and the clock, and the limiter still holds that
    request back until the interval since the last recorded request is
    over. *)
Theorem clearCache_forces_refetch (tokenIds : list string) (e : Env) (s : State) :
  0 <= timer_lag e ->
  size (getCacheStats (clearCache s)) = 0%nat
  /\ entries (getCacheStats (clearCache s)) = ∅
  /\ attempts_network (fetchTokenPrices tokenIds e (clearCache s)) = true
  /\ exists t,
       requestTime (events (fetchTokenPrices tokenIds e (clearCache s))) = Some t
       /\ lastRequestTime s + MIN_REQUEST_INTERVAL <= t.
Proof.
  intros Hlag.
  assert (Hmiss : cached tokenIds (now e) (clearCache s) = None) by reflexivity.
  split; [reflexivity |]. split; [apply dom_empty_L |].
  split; [now apply fetch_miss_attempts |].
  destruct (price_request_aux tokenIds e (clearCache s) Hmiss Hlag)
    as (t & Ht & Hsp & _).
  exists t. split; [exact Ht | exact Hsp].
Qed.

End CacheGrowth.

Lemma clearCache_forces_refetch_witness :
  Api.attempts_network
    (Api.fetchTokenPrices ["ethereum"] (unreachable 6000)
       (Api.clearCache
          (Api.state_after
             (Api.fetchTokenPrices ["ethereum"] (answering 5000 Api.fallbackPrices)
                Api.initial))))
  = true.
Proof.
  apply (clearCache_forces_refetch ["ethereum"] (unreachable 6000)).
  simpl. lia.
Defined.

(** ** The balance readers ([web3.ts]) *)

Section BalanceReaders.
Import Web3.
Context {rt : Runtime}.

(** X6. [getEthBalance] never throws and sends at most one query: it
    answers ["0"] without a provider (no query), when the balance query
    fails and when the balance cannot be formatted, and the formatted
    balance otherwise. *)
Theorem getEthBalance_never_throws (provider : option Chain) (address : string) :
  exists text,
    value_of (getEthBalance provider address) = Returned text
    /\ (provider = None -> calls (getEthBalance provider address) = [] /\ text = "0")
    /\ (forall ch, provider = Some ch ->
        calls (getEthBalance provider address) = [GetBalance address]
        /\ (is_returned (getBalance ch address) = false -> text = "0")
        /\ (forall b, getBalance ch address = Returned b ->
            is_returned (formatEther b) = false -> text = "0")
        /\ (forall b t, getBalance ch address = Returned b ->
            formatEther b = Returned t -> text = t)).
Proof.
  destruct provider as [ch |].
  - unfold getEthBalance, try_catch, bind, call, lift, ret, calls, value_of.
    destruct (getBalance ch address) as [b |] eqn:Hb; simpl.
    + destruct (formatEther b) as [t |] eqn:Hf; simpl.
      * exists t. split; [reflexivity |]. split; [discriminate |].
        intros ch' [= <-]. rewrite Hb. split; [reflexivity |].
        split; [discriminate |]. split.
        -- intros b' [= <-]. rewrite Hf. discriminate.
        -- intros b' t' [= <-]. rewrite Hf. now intros [= <-].
      * exists "0". split; [reflexivity |]. split; [discriminate |].
        intros ch' [= <-]. rewrite Hb. split; [reflexivity |].
        split; [reflexivity |]. split; [reflexivity |].
        intros b' t' [= <-]. rewrite Hf. discriminate.
    + exists "0". split; [reflexivity |]. split; [discriminate |].
      intros ch' [= <-]. rewrite Hb. split; [reflexivity |].
      split; [reflexivity |]. split; intros; discriminate.
  - exists "0". split; [reflexivity |]. split; [now split | discriminate].
Qed.

(** X7. [getTokenBalance] never throws and sends at most three queries;
    it stops after the balance query, with the zero result, when that
    query fails or answers zero. *)
Theorem getTokenBalance_never_throws (provider : option Chain)
    (tokenAddress walletAddress : string) :
  (exists r, value_of (getTokenBalance provider tokenAddress walletAddress) = Returned r)
  /\ (length (calls (getTokenBalance provider tokenAddress walletAddress)) <= 3)%nat
  /\ (forall ch, provider = Some ch ->
      isAddress tokenAddress = true -> isAddress walletAddress = true ->
      erc20_balanceOf ch tokenAddress walletAddress = Returned 0
      \/ is_returned (erc20_balanceOf ch tokenAddress walletAddress) = false ->
      getTokenBalance provider tokenAddress walletAddress
      = ([Erc20BalanceOf tokenAddress walletAddress], Returned zeroBalance)).
Proof.
  destruct provider as [ch |].
  - unfold getTokenBalance.
    destruct (isAddress tokenAddress) eqn:Ht; simpl.
    + destruct (isAddress walletAddress) eqn:Hw; simpl.
      * split; [| split].
        -- run_reader; eauto.
        -- run_reader; lia.
        -- intros ch' [= <-] _ _ Hstop.
           unfold try_catch, bind, call, ret.
           destruct (erc20_balanceOf ch tokenAddress walletAddress) as [b |];
             destruct Hstop as [[= ->] | Hfail]; try discriminate; reflexivity.
      * split; [eexists; reflexivity |]. split; [simpl; lia |].
        intros; discriminate.
    + split; [eexists; reflexivity |]. split; [simpl; lia |].
      intros; discriminate.
  - split; [eexists; reflexivity |]. split; [simpl; lia |]. discriminate.
Qed.

(** X8. A token with a non-zero balance whose contract answers neither
    [decimals()] nor [symbol()] still yields a balance: each of the two is
    defaulted on its own, to 18 decimals and to the symbol ["UNKNOWN"],
    and the three queries are sent in the order balance, decimals,
    symbol. *)
Theorem getTokenBalance_query_defaults (ch : Chain) (tokenAddress walletAddress : string)
    (b : Z) (text : string) :
  isAddress tokenAddress = true -> isAddress walletAddress = true ->
  erc20_balanceOf ch tokenAddress walletAddress = Returned b -> b <> 0 ->
  let d := match erc20_decimals ch tokenAddress with
           | Returned d => d
           | Thrown _ => 18
           end in
  let sym := match erc20_symbol ch tokenAddress with
             | Returned sym => sym
             | Thrown _ => "UNKNOWN"
             end in
  formatUnits b d = Returned text ->
  getTokenBalance (Some ch) tokenAddress walletAddress
  = ([ Erc20BalanceOf tokenAddress walletAddress; Erc20Decimals tokenAddress;
       Erc20Symbol tokenAddress ],
     Returned {| balance := text; symbol := sym; decimals := d |}).
Proof.
  intros Ht Hw Hb Hnz d sym Hfmt. unfold getTokenBalance.
  rewrite Ht, Hw. simpl. subst d sym.
  apply Z.eqb_neq in Hnz.
  unfold try_catch, catch_default, bind, all2, call, lift, ret. rewrite Hb, Hnz.
  destruct (erc20_decimals ch tokenAddress), (erc20_symbol ch tokenAddress);
    simpl in *; rewrite Hfmt; reflexivity.
Qed.

End BalanceReaders.

Lemma getTokenBalance_never_throws_witness :
  Web3.getTokenBalance (rt := Reference.runtime) (Some deadChain)
    "0x1f9840a85d5aF5bf1D1762F925BDADdC4201F984" someWallet
  = ([Web3.Erc20BalanceOf "0x1f9840a85d5aF5bf1D1762F925BDADdC4201F984" someWallet],
     Returned Web3.zeroBalance).
Proof.
  apply (proj2 (proj2 (getTokenBalance_never_throws (rt := Reference.runtime)
                         (Some deadChain)
                         "0x1f9840a85d5aF5bf1D1762F925BDADdC4201F984" someWallet))
           deadChain eq_refl eq_refl eq_refl).
  right. reflexivity.
Defined.

Lemma getTokenBalance_query_defaults_witness :
  Web3.getTokenBalance (rt := Reference.runtime) (Some bareTokenChain)
    "0x1f9840a85d5aF5bf1D1762F925BDADdC4201F984" someWallet
  = ([ Web3.Erc20BalanceOf "0x1f9840a85d5aF5bf1D1762F925BDADdC4201F984" someWallet;
       Web3.Erc20Decimals "0x1f9840a85d5aF5bf1D1762F925BDADdC4201F984";
       Web3.Erc20Symbol "0x1f9840a85d5aF5bf1D1762F925BDADdC4201F984" ],
     Returned {| Web3.balance := "2.5"; Web3.symbol := "UNKNOWN";
                 Web3.decimals := 18 |}).
Proof.
  apply (getTokenBalance_query_defaults (rt := Reference.runtime) bareTokenChain
           "0x1f9840a85d5aF5bf1D1762F925BDADdC4201F984" someWallet
           2500000000000000000 "2.5" eq_refl eq_refl eq_refl);
    [discriminate | reflexivity].
Defined.

Lemma getEthBalance_never_throws_witness :
  exists text,
    Web3.value_of (Web3.getEthBalance (rt := Reference.runtime) (Some fundedChain) someWallet)
    = Returned text.
Proof.
  destruct (getEthBalance_never_throws (rt := Reference.runtime) (Some fundedChain)
              someWallet) as (text & Hv & _).
  exists text. exact Hv.
Defined.

(** ** The queries and the shape of the position readers ([web3.ts]) *)

Section ReaderQueries.
Import Web3.
Context {rt : Runtime}.

(** A loop whose body never throws sends the queries of its iterations
    one after the other. *)
Lemma forEach_run {A B} (body : A -> list B -> M (list B))
    (log : A -> list Call) (item : A -> list B) (xs : list A) :
  (forall x acc, body x acc = (log x, Returned (acc ++ item x))) ->
  forall acc,
    forEach xs body acc = (flat_map log xs, Returned (acc ++ flat_map item xs)).
Proof.
  intros Hbody. induction xs as [| x xs IH]; intros acc; simpl.
  - now rewrite app_nil_r.
  - unfold bind. rewrite Hbody, IH. now rewrite <- app_assoc.
Qed.


Lemma aaveStep_run (ch : Chain) (w : string) (asset : string * string)
    (acc : list DefiPosition) :
  aaveStep ch w asset acc
  = ([AaveGetUserReserveData (fst asset) w], Returned (acc ++ aaveItem ch w asset)).
Proof.
  unfold aaveStep, aaveItem, try_catch, bind, call, lift, ret.
  destruct (aave_getUserReserveData ch (fst asset) w) as [b |]; simpl;
    [| now rewrite app_nil_r].
  destruct (0 <? b); simpl; [| now rewrite app_nil_r].
  destruct (formatUnits b 18) as [text |]; simpl; [| now rewrite app_nil_r].
  destruct (Js.gt (parseFloat text) 0.001); simpl; now rewrite ?app_nil_r.
Qed.

Lemma compoundStep_run (ch : Chain) (w : string) (cToken : CToken)
    (acc : list DefiPosition) :
  compoundStep ch w cToken acc
  = (compoundQueries w cToken, Returned (acc ++ compoundItem ch w cToken)).
Proof.
  unfold compoundStep, compoundItem, compoundQueries, try_catch, bind, all2,
    call, lift, ret.
  destruct (cToken_balanceOf ch (ct_address cToken) w) as [b |],
           (cToken_exchangeRateStored ch (ct_address cToken)) as [rate |];
    simpl; try now rewrite app_nil_r.
  destruct (0 <? b); simpl; [| now rewrite app_nil_r].
  destruct (formatEther _) as [text |]; simpl; [| now rewrite app_nil_r].
  destruct (Js.gt (parseFloat text) 0.001); simpl; now rewrite ?app_nil_r.
Qed.

Lemma getAavePositions_run (ch : Chain) (w : string) :
  getAavePositions (Some ch) w
  = (map (fun asset => AaveGetUserReserveData (fst asset) w) aaveAssets,
     Returned (flat_map (aaveItem ch w) aaveAssets)).
Proof.
  unfold getAavePositions, try_catch.
  now rewrite (forEach_run _ _ _ aaveAssets (aaveStep_run ch w)).
Qed.

Lemma getCompoundPositions_run (ch : Chain) (w : string) :
  getCompoundPositions (Some ch) w
  = (flat_map (compoundQueries w) compoundTokens,
     Returned
       match flat_map (compoundItem ch w) compoundTokens with
       | [] => [compoundExample]
       | positions => positions
       end).
Proof.
  unfold getCompoundPositions, try_catch, bind.
  rewrite (forEach_run _ _ _ compoundTokens (compoundStep_run ch w)).
  cbn [app]. destruct (flat_map (compoundItem ch w) compoundTokens);
    unfold ret; now rewrite app_nil_r.
Qed.

(** Items that contribute at most one element each, labelled after their
    source, give a list whose labels follow the order of the sources. *)
Lemma flat_map_labels_sublist {A B L} (item : A -> list B) (label : B -> L)
    (source : A -> L) (xs : list A) :
  (forall x, item x = [] \/ exists b, item x = [b] /\ label b = source x) ->
  map label (flat_map item xs) `sublist_of` map source xs.
Proof.
  intros Hitem. induction xs as [| x xs IH]; simpl; [constructor |].
  destruct (Hitem x) as [-> | (b & -> & <-)]; simpl.
  - now apply sublist_cons.
  - now apply sublist_skip.
Qed.

Lemma aaveItem_shape (ch : Chain) (w : string) (asset : string * string) :
  aaveItem ch w asset = []
  \/ exists pos, aaveItem ch w asset = [pos] /\ token pos = snd asset.
Proof.
  unfold aaveItem.
  destruct (aave_getUserReserveData ch (fst asset) w) as [b |]; [| now left].
  destruct (0 <? b); [| now left].
  destruct (formatUnits b 18) as [text |]; [| now left].
  destruct (Js.gt (parseFloat text) 0.001); [| now left].
  right. eexists. split; reflexivity.
Qed.

Lemma compoundItem_shape (ch : Chain) (w : string) (cToken : CToken) :
  compoundItem ch w cToken = []
  \/ exists pos, compoundItem ch w cToken = [pos] /\ token pos = ct_underlying cToken.
Proof.
  unfold compoundItem.
  destruct (cToken_balanceOf ch (ct_address cToken) w) as [b |]; [| now left].
  destruct (cToken_exchangeRateStored ch (ct_address cToken)) as [rate |];
    [| now left].
  destruct (0 <? b); [| now left].
  destruct (formatEther _) as [text |]; [| now left].
  destruct (Js.gt (parseFloat text) 0.001); [| now left].
  right. eexists. split; reflexivity.
Qed.

(** X9. With a provider, [getAavePositions] sends exactly the three
    reserve queries, WETH, USDC, DAI in that order, whatever the chain
    answers or fails to answer, and returns at most one position per
    reserve, in the order of the reserves. *)
Theorem getAavePositions_queries (ch : Chain) (walletAddress : string) :
  calls (getAavePositions (Some ch) walletAddress)
  = [ AaveGetUserReserveData "0xC02aaA39b223FE8D0A0e5C4F27eAD9083C756Cc2" walletAddress;
      AaveGetUserReserveData "0xA0b86a33E6441b8C4C4C4C4C4C4C4C4C4C4C4C4C" walletAddress;
      AaveGetUserReserveData "0x6B175474E89094C44Da98b954EedeAC495271d0F" walletAddress ]
  /\ exists positions,
       value_of (getAavePositions (Some ch) walletAddress) = Returned positions
       /\ map token positions `sublist_of` ["WETH"; "USDC"; "DAI"]
       /\ (length positions <= 3)%nat.
Proof.
  rewrite getAavePositions_run. split; [reflexivity |].
  eexists. split; [reflexivity |].
  pose proof (flat_map_labels_sublist (aaveItem ch walletAddress) token snd
                aaveAssets (aaveItem_shape ch walletAddress)) as Hsub.
  split; [exact Hsub |].
  apply sublist_length in Hsub. rewrite length_map in Hsub. exact Hsub.
Qed.

(** X10. With a provider, [getCompoundPositions] sends exactly six
    queries, the balance and the exchange rate of cETH, cUSDC and cDAI in
    that order, and never returns an empty list: either at most one
    position per cToken, in their order, or the example alone. *)
Theorem getCompoundPositions_queries (ch : Chain) (walletAddress : string) :
  calls (getCompoundPositions (Some ch) walletAddress)
  = [ CTokenBalanceOf "0x4Ddc2D193948926D02f9B1fE9e1daa0718270ED5" walletAddress;
      CTokenExchangeRateStored "0x4Ddc2D193948926D02f9B1fE9e1daa0718270ED5";
      CTokenBalanceOf "0x39AA39c021dfbaE8faC545936693aC917d5E7563" walletAddress;
      CTokenExchangeRateStored "0x39AA39c021dfbaE8faC545936693aC917d5E7563";
      CTokenBalanceOf "0x5d3a536E4D6DbD6114cc1Ead35777bAB948E3643" walletAddress;
      CTokenExchangeRateStored "0x5d3a536E4D6DbD6114cc1Ead35777bAB948E3643" ]
  /\ exists positions,
       value_of (getCompoundPositions (Some ch) walletAddress) = Returned positions
       /\ positions <> []
       /\ (length positions <= 3)%nat
       /\ (positions = [compoundExample]
           \/ map token positions `sublist_of` ["ETH"; "USDC"; "DAI"]).
Proof.
  rewrite getCompoundPositions_run. split; [reflexivity |].
  eexists. split; [reflexivity |].
  pose proof (flat_map_labels_sublist (compoundItem ch walletAddress) token
                ct_underlying compoundTokens (compoundItem_shape ch walletAddress))
    as Hsub.
  pose proof (sublist_length _ _ Hsub) as Hlen. rewrite !length_map in Hlen.
  destruct (flat_map (compoundItem ch walletAddress) compoundTokens) as [| p ps].
  - split; [discriminate |]. split; [simpl; lia |]. now left.
  - split; [discriminate |]. split; [exact Hlen |]. right. exact Hsub.
Qed.


Lemma flat_map_length_le {A B} (f : A -> list B) (n : nat) (xs : list A) :
  (forall x, (length (f x) <= n)%nat) ->
  (length (flat_map f xs) <= n * length xs)%nat.
Proof.
  intros Hf. induction xs as [| x xs IH]; simpl; [lia |].
  rewrite length_app. specialize (Hf x). lia.
Qed.


End ReaderQueries.

(** ** The token rows of a snapshot ([page.tsx]) *)

Section TokenRows.
Import Page.
Context {rt : Runtime}.
Variable src : Sources.

Lemma tokenStep_run (prices : Api.TokenMarketData) (address : string)
    (token : string * string) (acc : list TokenBalance) :
  tokenStep src prices address token acc
  = Returned (acc ++ tokenRows src prices address token).
Proof.
  unfold tokenStep, tokenRows, otry, obind.
  destruct (getTokenBalance src (fst token) address) as [balanceData |];
    [| now rewrite app_nil_r].
  destruct (_ && _); [reflexivity | now rewrite app_nil_r].
Qed.

Lemma oforEach_collect {A B} (body : A -> list B -> outcome (list B))
    (item : A -> list B) (xs : list A) :
  (forall x acc, body x acc = Returned (acc ++ item x)) ->
  forall acc, oforEach xs body acc = Returned (acc ++ flat_map item xs).
Proof.
  intros Hbody. induction xs as [| x xs IH]; intros acc; simpl.
  - now rewrite app_nil_r.
  - rewrite Hbody. simpl. rewrite IH. now rewrite <- app_assoc.
Qed.

(** A returned snapshot, in terms of what the sources returned. *)
Lemma fetchRealData_try_parts (address : string) (snap : PortfolioData) :
  fetchRealData_try src address = Returned snap ->
  exists prices ethBalance u a c,
    fetchTokenPrices src tokenIds = Returned prices
    /\ getEthBalance src address = Returned ethBalance
    /\ getUniswapPositions src address = Returned u
    /\ getAavePositions src address = Returned a
    /\ getCompoundPositions src address = Returned c
    /\ snap = merge (ethRow prices ethBalance
                     ++ flat_map (tokenRows src prices address) commonTokens)
                    u a c.
Proof.
  unfold fetchRealData_try, all3.
  destruct (fetchTokenPrices src tokenIds) as [prices |]; [| discriminate].
  destruct (getEthBalance src address) as [ethBalance |]; [| discriminate].
  cbn [obind].
  rewrite (oforEach_collect _ _ commonTokens (tokenStep_run prices address)).
  cbn [obind].
  destruct (getUniswapPositions src address) as [u |]; [| discriminate].
  destruct (getAavePositions src address) as [a |]; [| discriminate].
  destruct (getCompoundPositions src address) as [c |]; [| discriminate].
  simpl. intros [= <-]. exists prices, ethBalance, u, a, c. auto 10.
Qed.

Lemma tokenRows_shape (prices : Api.TokenMarketData) (address : string)
    (token : string * string) :
  (length (tokenRows src prices address token) <= 1)%nat
  /\ Forall (fun row =>
               Js.gt (parseFloat (Token.balance row)) 0 = true
               /\ Token.symbol row <> ""
               /\ Token.price row = Api.usdOr prices (Js.toLowerCase (snd token)) 0
               /\ Token.value row
                  = (parseFloat (Token.balance row) * Token.price row)%float)
            (tokenRows src prices address token).
Proof.
  unfold tokenRows.
  destruct (getTokenBalance src (fst token) address) as [balanceData |];
    [| split; [simpl; lia | constructor]].
  destruct (Js.gt _ 0) eqn:Hgt; simpl; [| split; [lia | constructor]].
  destruct (String.eqb_spec (Web3.symbol balanceData) "") as [| Hne]; simpl;
    [split; [lia | constructor] |].
  split; [lia |]. repeat constructor; auto.
Qed.

Lemma ethRow_shape (prices : Api.TokenMarketData) (ethBalance : string) :
  (length (ethRow prices ethBalance) <= 1)%nat
  /\ Forall (fun row =>
               Js.gt (parseFloat (Token.balance row)) 0 = true
               /\ Token.symbol row <> ""
               /\ Token.value row
                  = (parseFloat (Token.balance row) * Token.price row)%float)
            (ethRow prices ethBalance).
Proof.
  unfold ethRow. destruct (Js.gt _ 0) eqn:Hgt; simpl; [| split; [lia | constructor]].
  split; [lia |]. repeat constructor; auto; discriminate.
Qed.

(** X12. In every snapshot the aggregation returns, whatever the sources
    answer, there are at most seven token rows, and every row has a
    balance that parses to a positive number, a symbol that is not empty,
    and a value that is exactly its parsed balance times its price. *)
Theorem token_rows_consistent (address : string) (snap : PortfolioData) :
  fetchRealData_try src address = Returned snap ->
  (length (tokens snap) <= 7)%nat
  /\ Forall (fun row =>
               Js.gt (parseFloat (Token.balance row)) 0 = true
               /\ Token.symbol row <> ""
               /\ Token.value row
                  = (parseFloat (Token.balance row) * Token.price row)%float)
            (tokens snap).
Proof.
  intros Hrun.
  destruct (fetchRealData_try_parts address snap Hrun)
    as (prices & ethBalance & u & a & c & _ & _ & _ & _ & _ & ->).
  destruct (ethRow_shape prices ethBalance) as [Hlen Hrow].
  pose proof (flat_map_length_le (tokenRows src prices address) 1 commonTokens
                (fun token => proj1 (tokenRows_shape prices address token))) as Hl.
  assert (Hrows : Forall (fun row =>
                            Js.gt (parseFloat (Token.balance row)) 0 = true
                            /\ Token.symbol row <> ""
                            /\ Token.value row
                               = (parseFloat (Token.balance row) * Token.price row)%float)
                         (flat_map (tokenRows src prices address) commonTokens)).
  { apply Forall_flat_map, Forall_forall. intros token _.
    eapply Forall_impl; [apply (tokenRows_shape prices address token) |].
    simpl. intuition. }
  set (rows := flat_map (tokenRows src prices address) commonTokens) in *.
  change (tokens (merge (ethRow prices ethBalance ++ rows) u a c))
    with (ethRow prices ethBalance ++ rows).
  split.
  - rewrite length_app. simpl in Hl. lia.
  - apply Forall_app. split; [exact Hrow | exact Hrows].
Qed.

(** X13. The token rows of a returned snapshot are the row of the native
    balance, if any, followed by what each listed token contributes, in
    the order of the list; a token whose lookup throws contributes nothing
    and leaves the rows of the others as they are. *)
Theorem token_rows_are_isolated (address : string) (snap : PortfolioData) :
  fetchRealData_try src address = Returned snap ->
  exists prices ethBalance,
    fetchTokenPrices src tokenIds = Returned prices
    /\ getEthBalance src address = Returned ethBalance
    /\ tokens snap
       = ethRow prices ethBalance
         ++ flat_map (tokenRows src prices address) commonTokens
    /\ (forall token,
        is_returned (getTokenBalance src (fst token) address) = false ->
        tokenRows src prices address token = []).
Proof.
  intros Hrun.
  destruct (fetchRealData_try_parts address snap Hrun)
    as (prices & ethBalance & u & a & c & Hp & He & _ & _ & _ & ->).
  exists prices, ethBalance. repeat split; auto.
  intros token Hthrow. unfold tokenRows.
  now destruct (getTokenBalance src (fst token) address).
Qed.

(** X14. The price of a token row is looked up under the lower-cased
    symbol of the list, while a price table is keyed by the requested
    ids.  When the table has no other key than the requested ids, the rows
    of UNI, COMP and USDT get the price 0, whatever the balance: ["uni"],
    ["comp"] and ["usdt"] are not among the ids. *)
Theorem unlisted_symbols_priced_zero (prices : Api.TokenMarketData)
    (address : string) (token : string * string) :
  (forall k, is_Some (prices !! k) -> In k tokenIds) ->
  In token commonTokens ->
  In (snd token) ["UNI"; "COMP"; "USDT"] ->
  Forall (fun row => Token.price row = 0%float
                     /\ Token.value row
                        = (parseFloat (Token.balance row) * 0)%float)
         (tokenRows src prices address token).
Proof.
  intros Hkeys _ Hsym.
  assert (Hzero : Api.usdOr prices (Js.toLowerCase (snd token)) 0 = 0%float).
  { unfold Api.usdOr.
    destruct (prices !! Js.toLowerCase (snd token)) as [info |] eqn:Hlook;
      [| reflexivity].
    exfalso. assert (Hin : In (Js.toLowerCase (snd token)) tokenIds)
      by (apply Hkeys; eauto).
    destruct token as [contract sym]. simpl in Hsym, Hin.
    destruct Hsym as [<- | [<- | [<- | []]]];
      simpl in Hin; intuition discriminate. }
  eapply Forall_impl; [apply (tokenRows_shape prices address token) |].
  simpl. intros row (_ & _ & Hprice & Hvalue).
  rewrite Hvalue, Hprice, Hzero. now split.
Qed.

End TokenRows.

Lemma token_rows_consistent_witness :
  (length (Page.tokens demoSnapshot) <= 7)%nat.
Proof.
  apply (token_rows_consistent (rt := Reference.runtime) demoSources someWallet
           demoSnapshot demo_run).
Defined.

Lemma token_rows_are_isolated_witness :
  exists prices ethBalance,
    Page.tokens demoSnapshot
    = Page.ethRow (rt := Reference.runtime) prices ethBalance
      ++ flat_map (tokenRows (rt := Reference.runtime) demoSources prices someWallet)
           Page.commonTokens.
Proof.
  destruct (token_rows_are_isolated (rt := Reference.runtime) demoSources someWallet
              demoSnapshot demo_run) as (prices & ethBalance & _ & _ & Hrows & _).
  exists prices, ethBalance. exact Hrows.
Defined.

Lemma unlisted_symbols_priced_zero_witness :
  Forall (fun row => Page.Token.price row = 0%float
                     /\ Page.Token.value row
                        = (Reference.parseFloat (Page.Token.balance row) * 0)%float)
         (tokenRows (rt := Reference.runtime) demoSources Api.fallbackPrices someWallet
            ("0x1f9840a85d5aF5bf1D1762F925BDADdC4201F984", "UNI")).
Proof.
  apply (unlisted_symbols_priced_zero (rt := Reference.runtime) demoSources
           Api.fallbackPrices someWallet
           ("0x1f9840a85d5aF5bf1D1762F925BDADdC4201F984", "UNI")).
  - intros k [info Hk].
    destruct (decide (In k Page.tokenIds)) as [Hin | Hout]; [exact Hin |].
    exfalso. unfold Api.fallbackPrices in Hk.
    apply elem_of_list_to_map_2, list_elem_of_In in Hk.
    simpl in Hk, Hout. intuition congruence.
  - simpl. auto.
  - simpl. auto.
Defined.

(** ** Sums of positive numbers *)

Lemma binary_round_positive (m : positive) (e : Z) :
  positiveSF (binary_round prec emax false m e) = true.
Proof.
  unfold binary_round.
  destruct (shl_align m e _) as [mz ez]. now apply binary_round_aux_positive.
Qed.

Lemma SFadd_positive (x y : spec_float) :
  positiveSF x = true -> positiveSF y = true ->
  positiveSF (SFadd prec emax x y) = true.
Proof.
  destruct x as [[|] | [|] | | [|] mx ex], y as [[|] | [|] | | [|] my ey];
    simpl; try discriminate; try reflexivity.
  intros _ _. unfold binary_normalize.
  destruct (shl_align mx ex (Z.min ex ey)) as [ax ez1],
           (shl_align my ey (Z.min ex ey)) as [ay ez2].
  simpl. apply binary_round_positive.
Qed.

Lemma add_positive (x y : float) :
  positiveSF (Prim2SF x) = true -> positiveSF (Prim2SF y) = true ->
  positiveSF (Prim2SF (x + y)) = true.
Proof. intros Hx Hy. rewrite FloatAxioms.add_spec. now apply SFadd_positive. Qed.

Lemma or_default_positive (pos : DefiPosition) :
  positiveYield pos = true ->
  positiveSF (Prim2SF (Js.or_default (yield pos) 0)) = true.
Proof.
  unfold positiveYield, Js.or_default.
  destruct (yield pos) as [v |]; [| reflexivity].
  intros Hv. now destruct (Js.truthy v).
Qed.

Lemma yield_sum_positive (positions : list DefiPosition) (acc : float) :
  Forall (fun pos => positiveYield pos = true) positions ->
  positiveSF (Prim2SF acc) = true ->
  positiveSF
    (Prim2SF (fold_left (fun total pos => (total + Js.or_default (yield pos) 0)%float)
                positions acc)) = true.
Proof.
  intros Hall. revert acc.
  induction Hall as [| pos rest Hpos _ IH]; intros acc Hacc; simpl; [exact Hacc |].
  apply IH, add_positive; [exact Hacc | now apply or_default_positive].
Qed.

(** An amount above the display threshold, multiplied by a positive
    constant, is positive. *)
Lemma scaled_amount_positive (x k : float) (mk : positive) (ek : Z) :
  Prim2SF k = S754_finite false mk ek ->
  Js.gt x 0.001 = true ->
  positiveSF (Prim2SF (x * k)) = true.
Proof.
  intros Hk Hgt. rewrite FloatAxioms.mul_spec, Hk. unfold Js.gt in Hgt.
  rewrite FloatAxioms.ltb_spec in Hgt.
  set (c := Prim2SF 0.001) in Hgt. vm_compute in c. subst c.
  destruct (SFltb_finite_positive _ _ _ Hgt) as [-> | (m' & e' & ->)].
  - reflexivity.
  - simpl. now apply binary_round_aux_positive.
Qed.

(** ** The positions of a snapshot of the application *)

Section LivePositions.
Import Web3.
Context {rt : Runtime}.

(** What a reader contributes, item by item: the label of its protocol,
    a yield that is absent or positive, and for the position manager no
    yield at all. *)
Lemma uniswapItem_facts (ch : Chain) (w : string) (i : Z) :
  Forall (fun pos => protocol pos = "Uniswap V3" /\ yield pos = None)
         (uniswapItem ch w i).
Proof.
  unfold uniswapItem.
  destruct (npm_tokenOfOwnerByIndex ch w i) as [tokenId |]; [| constructor].
  destruct (npm_positions ch tokenId); repeat constructor.
Qed.

Lemma aaveItem_facts (ch : Chain) (w : string) (asset : string * string) :
  Forall (fun pos => protocol pos = "Aave" /\ positiveYield pos = true)
         (aaveItem ch w asset).
Proof.
  unfold aaveItem.
  destruct (aave_getUserReserveData ch (fst asset) w) as [b |]; [| constructor].
  destruct (0 <? b); [| constructor].
  destruct (formatUnits b 18) as [text |]; [| constructor].
  destruct (Js.gt (parseFloat text) 0.001) eqn:Hgt; repeat constructor.
  unfold positiveYield. simpl.
  eapply scaled_amount_positive; [reflexivity | exact Hgt].
Qed.

Lemma compoundItem_facts (ch : Chain) (w : string) (cToken : CToken) :
  Forall (fun pos => protocol pos = "Compound" /\ positiveYield pos = true)
         (compoundItem ch w cToken).
Proof.
  unfold compoundItem.
  destruct (cToken_balanceOf ch (ct_address cToken) w) as [b |]; [| constructor].
  destruct (cToken_exchangeRateStored ch (ct_address cToken)) as [rate |];
    [| constructor].
  destruct (0 <? b); [| constructor].
  destruct (formatEther _) as [text |]; [| constructor].
  destruct (Js.gt (parseFloat text) 0.001) eqn:Hgt; repeat constructor.
  unfold positiveYield. simpl.
  eapply scaled_amount_positive; [reflexivity | exact Hgt].
Qed.

Lemma flat_map_Forall {A B} (P : B -> Prop) (item : A -> list B) (xs : list A) :
  (forall x, Forall P (item x)) -> Forall P (flat_map item xs).
Proof.
  intros Hitem. apply Forall_flat_map, Forall_forall. intros x _. apply Hitem.
Qed.

Lemma uniswap_positions_facts (provider : option Chain) (w : string)
    (u : list DefiPosition) :
  value_of (getUniswapPositions provider w) = Returned u ->
  Forall (fun pos => protocol pos = "Uniswap V3" /\ yield pos = None) u
  /\ (length u <= 10)%nat.
Proof.
  destruct provider as [ch |].
  - rewrite getUniswapPositions_value. intros Hu. apply Returned_inj in Hu.
    subst u.
    destruct (npm_balanceOf ch w) as [b |];
      [| split; [repeat constructor | simpl; lia]].
    destruct (0 <? b); [| split; [constructor | simpl; lia]].
    destruct (toNumber b) as [n |]; [| split; [repeat constructor | simpl; lia]].
    split.
    + exact (flat_map_Forall _ _ (uniswapIndices n) (uniswapItem_facts ch w)).
    + pose proof (flat_map_uniswapItem_length ch w (uniswapIndices n)) as Hl.
      rewrite uniswapIndices_length in Hl. lia.
  - intros Hu. apply Returned_inj in Hu. subst u. split; [constructor | simpl; lia].
Qed.

Lemma aave_positions_facts (provider : option Chain) (w : string)
    (a : list DefiPosition) :
  value_of (getAavePositions provider w) = Returned a ->
  Forall (fun pos => protocol pos = "Aave" /\ positiveYield pos = true) a
  /\ (length a <= 3)%nat.
Proof.
  destruct provider as [ch |].
  - rewrite getAavePositions_value. intros Ha. apply Returned_inj in Ha. subst a.
    split.
    + exact (flat_map_Forall _ _ aaveAssets (aaveItem_facts ch w)).
    + pose proof (flat_map_length_le (aaveItem ch w) 1 aaveAssets) as Hl.
      simpl in Hl. apply Hl. intros asset.
      destruct (aaveItem_shape ch w asset) as [-> | (pos & -> & _)]; simpl; lia.
  - intros Ha. apply Returned_inj in Ha. subst a. split; [constructor | simpl; lia].
Qed.

Lemma compound_positions_facts (provider : option Chain) (w : string)
    (c : list DefiPosition) :
  value_of (getCompoundPositions provider w) = Returned c ->
  Forall (fun pos => protocol pos = "Compound" /\ positiveYield pos = true) c
  /\ (length c <= 3)%nat.
Proof.
  destruct provider as [ch |].
  - rewrite getCompoundPositions_value. intros Hc. apply Returned_inj in Hc.
    subst c.
    pose proof (flat_map_Forall _ _ compoundTokens (compoundItem_facts ch w)) as Hf.
    assert (Hl : (length (flat_map (compoundItem ch w) compoundTokens) <= 3)%nat).
    { pose proof (flat_map_length_le (compoundItem ch w) 1 compoundTokens) as Hl.
      simpl in Hl. apply Hl. intros cToken.
      destruct (compoundItem_shape ch w cToken) as [-> | (pos & -> & _)];
        simpl; lia. }
    destruct (flat_map (compoundItem ch w) compoundTokens) as [| p ps].
    + split; [repeat constructor | simpl; lia].
    + split; [exact Hf | exact Hl].
  - intros Hc. apply Returned_inj in Hc. subst c. split; [constructor | simpl; lia].
Qed.

Lemma map_protocol_repeat (label : string) (positions : list DefiPosition) :
  Forall (fun pos => protocol pos = label) positions ->
  map protocol positions = repeat label (length positions).
Proof.
  induction 1 as [| pos rest Hpos _ IH]; simpl; [reflexivity |].
  now rewrite Hpos, IH.
Qed.

Lemma yieldless_sum (positions : list DefiPosition) :
  Forall (fun pos => yield pos = None) positions ->
  fold_left (fun total pos => (total + Js.or_default (yield pos) 0)%float)
    positions 0%float = 0%float.
Proof.
  induction 1 as [| pos rest Hpos _ IH]; simpl; [reflexivity |].
  rewrite Hpos. simpl. exact IH.
Qed.

End LivePositions.

Section LiveSnapshots.
Import Page.
Context {rt : Runtime}.
Variable provider : option Web3.Chain.
Variable e : Api.Env.
Variable s : Api.State.

Lemma live_snapshot_parts (address : string) (snap : PortfolioData) :
  fetchRealData_try (liveSources provider e s) address = Returned snap ->
  exists tokenBalances u a c,
    Web3.value_of (Web3.getUniswapPositions provider address) = Returned u
    /\ Web3.value_of (Web3.getAavePositions provider address) = Returned a
    /\ Web3.value_of (Web3.getCompoundPositions provider address) = Returned c
    /\ snap = merge tokenBalances u a c.
Proof.
  intros Hrun.
  destruct (fetchRealData_try_merged _ address snap Hrun)
    as (tokenBalances & u & a & c & Hu & Ha & Hc & Hsnap).
  exists tokenBalances, u, a, c. auto.
Qed.

(** X15. The positions of a snapshot of the application are the Uniswap
    positions, then the Aave positions, then the Compound positions: at
    most ten, three and three of them, sixteen in all, whatever order the
    readers complete in. *)
Theorem positions_follow_reader_order (address : string) (snap : PortfolioData) :
  fetchRealData_try (liveSources provider e s) address = Returned snap ->
  exists i j k,
    map protocol (defiPositions snap)
    = repeat "Uniswap V3" i ++ repeat "Aave" j ++ repeat "Compound" k
    /\ (i <= 10)%nat /\ (j <= 3)%nat /\ (k <= 3)%nat
    /\ (length (defiPositions snap) <= 16)%nat.
Proof.
  intros Hrun.
  destruct (live_snapshot_parts address snap Hrun)
    as (tokenBalances & u & a & c & Hu & Ha & Hc & ->).
  destruct (uniswap_positions_facts provider address u Hu) as [Hfu Hlu].
  destruct (aave_positions_facts provider address a Ha) as [Hfa Hla].
  destruct (compound_positions_facts provider address c Hc) as [Hfc Hlc].
  exists (length u), (length a), (length c).
  change (defiPositions (merge tokenBalances u a c)) with (u ++ a ++ c).
  rewrite !map_app, !length_app.
  rewrite (map_protocol_repeat "Uniswap V3" u),
    (map_protocol_repeat "Aave" a), (map_protocol_repeat "Compound" c).
  - repeat split; auto; lia.
  - eapply Forall_impl; [exact Hfc |]. simpl. intuition.
  - eapply Forall_impl; [exact Hfa |]. simpl. intuition.
  - eapply Forall_impl; [exact Hfu |]. simpl. intuition.
Qed.

(** X16. Uniswap positions count in the total value and never in the
    total yield: the [totalYield] of a snapshot of the application is what
    [calculateTotalYield] gives on its Aave and Compound positions
    alone. *)
Theorem uniswap_adds_no_yield (address : string) (snap : PortfolioData) :
  fetchRealData_try (liveSources provider e s) address = Returned snap ->
  exists u a c,
    defiPositions snap = u ++ a ++ c
    /\ Web3.value_of (Web3.getUniswapPositions provider address) = Returned u
    /\ Web3.value_of (Web3.getAavePositions provider address) = Returned a
    /\ Web3.value_of (Web3.getCompoundPositions provider address) = Returned c
    /\ totalYield snap = Api.calculateTotalYield (a ++ c).
Proof.
  intros Hrun.
  destruct (live_snapshot_parts address snap Hrun)
    as (tokenBalances & u & a & c & Hu & Ha & Hc & ->).
  exists u, a, c. repeat split; auto.
  destruct (uniswap_positions_facts provider address u Hu) as [Hfu _].
  change (totalYield (merge tokenBalances u a c))
    with (fold_left (fun total pos => (total + Js.or_default (yield pos) 0)%float)
            (u ++ a ++ c) 0%float).
  rewrite fold_left_app, yieldless_sum; [reflexivity |].
  eapply Forall_impl; [exact Hfu |]. simpl. intuition.
Qed.

(** X17. The [totalYield] of a snapshot of the application is [+0], a
    positive number or [+infinity]: never [NaN], never negative. *)
Theorem totalYield_is_not_negative (address : string) (snap : PortfolioData) :
  fetchRealData_try (liveSources provider e s) address = Returned snap ->
  positiveSF (Prim2SF (totalYield snap)) = true
  /\ PrimFloat.is_nan (totalYield snap) = false
  /\ PrimFloat.ltb (totalYield snap) 0 = false.
Proof.
  intros Hrun.
  destruct (live_snapshot_parts address snap Hrun)
    as (tokenBalances & u & a & c & Hu & Ha & Hc & ->).
  destruct (uniswap_positions_facts provider address u Hu) as [Hfu _].
  destruct (aave_positions_facts provider address a Ha) as [Hfa _].
  destruct (compound_positions_facts provider address c Hc) as [Hfc _].
  assert (Hpos : positiveSF (Prim2SF (totalYield (merge tokenBalances u a c))) = true).
  { change (totalYield (merge tokenBalances u a c))
      with (fold_left (fun total pos => (total + Js.or_default (yield pos) 0)%float)
              (u ++ a ++ c) 0%float).
    apply yield_sum_positive; [| reflexivity].
    repeat (apply Forall_app; split).
    - eapply Forall_impl; [exact Hfu |]. simpl. intros pos [_ Hy].
      unfold positiveYield. now rewrite Hy.
    - eapply Forall_impl; [exact Hfa |]. simpl. intuition.
    - eapply Forall_impl; [exact Hfc |]. simpl. intuition. }
  split; [exact Hpos |].
  pose proof (ordinary_of_positiveSF _ Hpos) as Hord.
  unfold ordinary in Hord. apply andb_true_iff in Hord as [Hnan _].
  apply negb_true_iff in Hnan. split; [exact Hnan |].
  rewrite FloatAxioms.ltb_spec.
  replace (Prim2SF 0) with (S754_zero false) by reflexivity.
  destruct (Prim2SF (totalYield (merge tokenBalances u a c)))
    as [[|] | [|] | | [|] m ex]; try discriminate; reflexivity.
Qed.

End LiveSnapshots.

Section NoProvider.
Import Page.
Context {rt : Runtime}.

Lemma fetchTokenPrices_returns (ids : list string) (e : Api.Env) (s : Api.State) :
  exists d, Api.result (Api.fetchTokenPrices ids e s) = Returned d.
Proof.
  unfold Api.fetchTokenPrices.
  destruct (Api.result (Api.fetchTokenPrices_try ids e s)) eqn:Hr; simpl; eauto.
Qed.

(** X18. Without a provider (no wallet extension) the aggregation does
    not fail: it announces a success and returns the empty portfolio, no
    token row, no position, both totals 0, whatever the price endpoint
    answers (given that ["0"] does not parse to a positive number). *)
Theorem no_provider_empty_portfolio (e : Api.Env) (s : Api.State) (address : string) :
  Js.gt (parseFloat "0") 0 = false ->
  fetchRealData (liveSources None e s) address = successfulLoad Ui.emptyPortfolio.
Proof.
  intros Hzero. unfold fetchRealData, fetchRealData_try, all3.
  cbn [liveSources fetchTokenPrices getEthBalance getUniswapPositions
       getAavePositions getCompoundPositions].
  destruct (fetchTokenPrices_returns tokenIds e s) as [prices ->].
  cbn [obind Web3.getEthBalance Web3.value_of Web3.ret snd].
  rewrite (oforEach_collect _ _ commonTokens
             (tokenStep_run (liveSources None e s) prices address)).
  assert (Hrows : forall token,
             tokenRows (liveSources None e s) prices address token = []).
  { intros token. unfold tokenRows. simpl. now rewrite Hzero. }
  assert (Hflat : flat_map (tokenRows (liveSources None e s) prices address)
                    commonTokens = []).
  { induction commonTokens as [| token rest IH]; simpl; [reflexivity |].
    now rewrite Hrows, IH. }
  rewrite Hflat. unfold ethRow. rewrite Hzero. reflexivity.
Qed.

End NoProvider.

Lemma positions_follow_reader_order_witness :
  exists i j k,
    map protocol (Page.defiPositions demoSnapshot)
    = repeat "Uniswap V3" i ++ repeat "Aave" j ++ repeat "Compound" k.
Proof.
  destruct (positions_follow_reader_order (rt := Reference.runtime) (Some fundedChain)
              (unreachable 5000) Api.initial someWallet demoSnapshot demo_run)
    as (i & j & k & Horder & _).
  exists i, j, k. exact Horder.
Defined.

Lemma uniswap_adds_no_yield_witness :
  exists a c, Page.totalYield demoSnapshot = Api.calculateTotalYield (a ++ c).
Proof.
  destruct (uniswap_adds_no_yield (rt := Reference.runtime) (Some fundedChain)
              (unreachable 5000) Api.initial someWallet demoSnapshot demo_run)
    as (u & a & c & _ & _ & _ & _ & Hyield).
  exists a, c. exact Hyield.
Defined.

Lemma totalYield_is_not_negative_witness :
  PrimFloat.is_nan (Page.totalYield demoSnapshot) = false.
Proof.
  apply (totalYield_is_not_negative (rt := Reference.runtime) (Some fundedChain)
           (unreachable 5000) Api.initial someWallet demoSnapshot demo_run).
Defined.

Lemma no_provider_empty_portfolio_witness :
  Page.fetchRealData (rt := Reference.runtime)
    (Page.liveSources (rt := Reference.runtime) None (unreachable 5000) Api.initial)
    someWallet
  = successfulLoad Ui.emptyPortfolio.
Proof.
  apply (no_provider_empty_portfolio (rt := Reference.runtime)).
  reflexivity.
Defined.

(** ** [formatAddress] *)

Section AddressDisplay.
Import Display.

Lemma string_length_append (s1 s2 : string) :
  String.length (s1 +:+ s2) = (String.length s1 + String.length s2)%nat.
Proof.
  induction s1 as [| c s1 IH]; [now rewrite append_empty |].
  rewrite append_cons. simpl. now rewrite IH.
Qed.

Lemma substring_skip_length (k n : nat) (s : string) :
  String.length (String.substring k n s) = Nat.min n (String.length s - k).
Proof.
  revert k n. induction s as [| c s IH]; intros [| k] [| n]; simpl; auto;
    rewrite IH; now rewrite ?Nat.sub_0_r.
Qed.

Lemma substring_skip_append (p r : string) (k n : nat) :
  String.substring (String.length p + k) n (p +:+ r) = String.substring k n r.
Proof.
  induction p as [| c p IH]; [now rewrite append_empty |].
  rewrite append_cons. simpl. exact IH.
Qed.

Lemma substring_whole (n : nat) (s : string) :
  (String.length s <= n)%nat -> String.substring 0 n s = s.
Proof.
  revert n. induction s as [| c s IH]; intros [| n] Hlen; simpl in *;
    try reflexivity; try lia.
  f_equal. apply IH. lia.
Qed.

Lemma substring_prefix_append (p r : string) :
  String.substring 0 (String.length p) (p +:+ r) = p.
Proof.
  induction p as [| c p IH]; [rewrite append_empty; now destruct r |].
  rewrite append_cons. simpl. now rewrite IH.
Qed.

(** X19. [formatAddress] keeps the first six and the last four characters
    of an address around ["..."]: 13 characters for any address of ten
    characters or more.  A shorter string is not rejected: its two ends
    overlap, and a string of at most four characters is shown twice. *)
Theorem formatAddress_shape (address : string) :
  String.length (formatAddress address)
  = (Nat.min 6 (String.length address) + 3 + Nat.min 4 (String.length address))%nat
  /\ (forall p m q,
      address = p +:+ m +:+ q -> String.length p = 6%nat -> String.length q = 4%nat ->
      formatAddress address = p +:+ "..." +:+ q)
  /\ ((String.length address <= 4)%nat ->
      formatAddress address = address +:+ "..." +:+ address).
Proof.
  unfold formatAddress, sliceTo, sliceLast. split; [| split].
  - rewrite !string_length_append, !substring_skip_length.
    change (String.length "...") with 3%nat. lia.
  - intros p m q -> Hp Hq.
    rewrite <- Hp at 1. rewrite substring_prefix_append.
    rewrite !string_length_append, Hq.
    replace (String.length p + (String.length m + 4) - 4)%nat
      with (String.length p + (String.length m + 0))%nat by lia.
    rewrite !substring_skip_append. rewrite substring_whole by lia. reflexivity.
  - intros Hshort.
    replace (String.length address - 4)%nat with 0%nat by lia.
    now rewrite !substring_whole by lia.
Qed.

End AddressDisplay.

Lemma formatAddress_shape_witness :
  Display.formatAddress someWallet = "0x742d...f44e".
Proof.
  apply (proj1 (proj2 (formatAddress_shape someWallet))
           "0x742d" "35Cc6634C0532925a3b844Bc454e4438" "f44e");
    reflexivity.
Defined.

(** ** The demonstration generators *)

Section Generators.
Variable toFixed : float -> nat -> string.
Variable random : nat -> float.

(** X20. Whatever [Math.random] returns, [fetchWalletBalances] lists ETH,
    USDC and UNI first, then possibly AAVE, then possibly COMP: three to
    five balances, of which ETH alone has no contract address. *)
Theorem fetchWalletBalances_shape :
  exists extras,
    map Api.symbol (Mock.fetchWalletBalances toFixed random)
    = ["ETH"; "USDC"; "UNI"] ++ extras
    /\ extras `sublist_of` ["AAVE"; "COMP"]
    /\ (3 <= length (Mock.fetchWalletBalances toFixed random) <= 5)%nat
    /\ Forall (fun t => Api.contractAddress t = None <-> Api.symbol t = "ETH")
              (Mock.fetchWalletBalances toFixed random).
Proof.
  unfold Mock.fetchWalletBalances.
  destruct (Js.gt (random 3) 0.5);
    [destruct (Js.gt (random 5) 0.7) | destruct (Js.gt (random 4) 0.7)]; simpl;
    eexists; (split; [reflexivity |]);
    (split; [repeat first [apply sublist_skip | apply sublist_cons | apply sublist_nil] |]);
    (split; [lia |]);
    repeat constructor; simpl; intros; discriminate.
Qed.

(** X21. Whatever [Math.random] returns, [fetchDefiPositions] returns at
    most one position per protocol, in the order Uniswap V3, Aave,
    Compound, and every position it returns has an APY and a yield. *)
Theorem fetchDefiPositions_shape :
  map protocol (Mock.fetchDefiPositions toFixed random)
    `sublist_of` ["Uniswap V3"; "Aave"; "Compound"]
  /\ (length (Mock.fetchDefiPositions toFixed random) <= 3)%nat
  /\ Forall (fun pos => is_Some (apy pos) /\ is_Some (yield pos))
            (Mock.fetchDefiPositions toFixed random).
Proof.
  unfold Mock.fetchDefiPositions.
  destruct (Js.gt (random 0) 0.3); cbv zeta iota beta;
    [destruct (Js.gt (random 6) 0.4); cbv zeta iota beta;
       [destruct (Js.gt (random (6 + 5)) 0.5) | destruct (Js.gt (random 7) 0.5)]
    | destruct (Js.gt (random 1) 0.4); cbv zeta iota beta;
       [destruct (Js.gt (random (1 + 5)) 0.5) | destruct (Js.gt (random 2) 0.5)]];
    simpl;
    (split; [repeat first [apply sublist_skip | apply sublist_cons | apply sublist_nil] |]);
    (split; [lia |]);
    repeat constructor; simpl; eauto.
Qed.

End Generators.

(** ** The data-source toggle ([page.tsx]) *)

Section Toggle.
Import Ui.
Context {rt : Runtime}.
Variable src : Page.Sources.

(** X22. [toggleDataSource] on a connected page switches the data source
    but reloads through the callback of the current render, which still
    reads the source selected before the switch: after switching from the
    demonstration data to the real data the page shows the demonstration
    snapshot under the new label, and after the opposite switch it shows
    what [fetchRealData] returns.  The next [refreshData] loads from the
    source now selected. *)
Theorem toggle_loads_previous_source (ui : State) :
  hasWallet ui = true ->
  let ui' := fst (toggleDataSource src ui) in
  dataSource ui' <> dataSource ui
  /\ (dataSource ui = Mock ->
      dataSource ui' = Real
      /\ portfolioData ui' = Page.fetchMockData
      /\ snd (toggleDataSource src ui)
         = [Page.ToastSuccess "Mock data loaded successfully!"]
      /\ portfolioData (fst (refreshData src ui'))
         = Page.portfolio (Page.fetchRealData src (walletAddress ui)))
  /\ (dataSource ui = Real ->
      dataSource ui' = Mock
      /\ portfolioData ui' = Page.portfolio (Page.fetchRealData src (walletAddress ui))
      /\ portfolioData (fst (refreshData src ui')) = Page.fetchMockData).
Proof.
  intros Hwallet ui'. subst ui'.
  unfold toggleDataSource, refreshData. rewrite Hwallet.
  unfold fetchPortfolioData.
  destruct (dataSource ui) eqn:Hsource; simpl;
    unfold hasWallet in *; simpl; rewrite ?Hwallet; simpl.
  - split; [discriminate |]. split; [auto | discriminate].
  - split; [discriminate |]. split; [discriminate | auto].
Qed.

End Toggle.

Lemma toggle_loads_previous_source_witness :
  Ui.dataSource (fst (Ui.toggleDataSource (rt := Reference.runtime) demoSources connectedMock))
  = Ui.Real
  /\ Ui.portfolioData
       (fst (Ui.toggleDataSource (rt := Reference.runtime) demoSources connectedMock))
     = Page.fetchMockData.
Proof.
  destruct (toggle_loads_previous_source (rt := Reference.runtime) demoSources
              connectedMock eq_refl) as (_ & Hmock & _).
  destruct (Hmock eq_refl) as (Hsource & Hdata & _).
  split; [exact Hsource | exact Hdata].
Defined.

(** ** The cache over the life of the module *)

Section ModuleRuns.
Import Api.

Lemma market_cache_unchanged (ids : list string) (e : Market.Env) (s : State) :
  cache (Market.state_after (Market.fetchTokenData ids e s)) = cache s.
Proof.
  unfold Market.fetchTokenData, rateLimit.
  destruct (_ <? _); reflexivity.
Qed.

(** X23. From the fresh module, through any sequence of calls of
    [fetchTokenPrices], [fetchTokenData] and [clearCache], the cache holds
    no more entries than [fetchTokenPrices] was called, and every key in
    it is the key of a list of ids, so it starts with ["prices_"]. *)
Theorem cache_bounded_by_price_calls (s : State) (n : nat) :
  Run s n ->
  (size (getCacheStats s) <= n)%nat
  /\ forall k, is_Some (cache s !! k) ->
       exists ids, k = cacheKey ids /\ k = "prices_" +:+ Js.join "," ids.
Proof.
  unfold getCacheStats. simpl.
  induction 1 as [| s n ids e _ [IHsize IHkeys] | s n ids e _ [IHsize IHkeys]
                  | s n _ [IHsize IHkeys]].
  - split; [reflexivity |]. intros k [entry Hk]. discriminate.
  - destruct (fetch_cache_effect ids e s) as [-> | [entry ->]].
    + split; [lia | exact IHkeys].
    + split.
      * rewrite map_size_insert. destruct (cache s !! cacheKey ids); simpl; lia.
      * intros k Hk. destruct (decide (cacheKey ids = k)) as [<- | Hne].
        -- exists ids. now split.
        -- rewrite lookup_insert_ne in Hk by exact Hne. now apply IHkeys.
  - rewrite market_cache_unchanged. now split.
  - simpl. split; [rewrite map_size_empty; lia |].
    intros k [entry Hk]. discriminate.
Qed.

End ModuleRuns.

Lemma cache_bounded_by_price_calls_witness :
  (Api.size
     (Api.getCacheStats
        (Api.state_after
           (Api.fetchTokenPrices ["ethereum"] (answering 5000 Api.fallbackPrices)
              Api.initial))) <= 1)%nat.
Proof.
  apply (cache_bounded_by_price_calls _ 1).
  apply run_prices, run_initial.
Defined.


Lemma fetchTokenPrices_cache_growth_witness :
  let s := Api.state_after
             (Api.fetchTokenPrices ["ethereum"] (answering 5000 Api.fallbackPrices)
                Api.initial) in
  Api.size (Api.getCacheStats
              (Api.state_after
                 (Api.fetchTokenPrices ["ethereum"] (answering 400000 Api.fallbackPrices) s)))
  = Api.size (Api.getCacheStats s).
Proof.
  intros s.
  apply (fetchTokenPrices_cache_growth ["ethereum"] (answering 400000 Api.fallbackPrices) s).
  eexists. reflexivity.
Defined.
